(** * extract_kernels.py: nested extraction with per-entry fault isolation

    A shallow embedding of [windows/scripts/extract_kernels.py] and the
    properties of its driver loop, of its two extraction hops and of the
    [TemporaryDirectory] context manager.

    The script talks to the outside world through [os], [tempfile],
    [shutil] and [subprocess].  Those calls are embedded as operations of
    a small state-and-exception monad over an explicit [World]: the
    directories and files that exist, and the answers the environment
    gives to successive calls (random temporary names, results of the 7z
    runs, faults hit by recursive deletions and by moves).  Every operation also emits
    the events an observer of the process sees: console lines and calls
    to the outside. *)

From Stdlib Require Import ZArith Ascii String List.
From stdpp Require Import base numbers list strings gmap sets.

Local Open Scope Z_scope.
Local Open Scope string_scope.

(** ** [os.path] on POSIX paths *)

Definition sep : ascii := "/"%char.
Definition extsep : ascii := "."%char.

(** [s.startswith(sep)] *)
Definition startswith_sep (s : string) : bool :=
  match s with
  | String c _ => Ascii.eqb c sep
  | EmptyString => false
  end.

(** [s.endswith(sep)] *)
Fixpoint endswith_sep (s : string) : bool :=
  match s with
  | EmptyString => false
  | String c s' =>
      match s' with
      | EmptyString => Ascii.eqb c sep
      | String _ _ => endswith_sep s'
      end
  end.

(** [os.path.join(a, b)]: an absolute [b] discards [a]; a separator is
    inserted unless [a] is empty or already ends with one. *)
Definition os_path_join (a b : string) : string :=
  if startswith_sep b then b
  else if String.eqb a "" || endswith_sep a then a +:+ b
  else a +:+ "/" +:+ b.

(** [s.rfind(c)], [-1] when [c] does not occur. *)
Fixpoint rfind_from (c : ascii) (s : string) (i last : Z) : Z :=
  match s with
  | EmptyString => last
  | String a s' => rfind_from c s' (i + 1) (if Ascii.eqb a c then i else last)
  end.

Definition rfind (c : ascii) (s : string) : Z := rfind_from c s 0 (-1).

(** The slices [s[:i]] and [s[i:]] for [0 <= i]. *)
Fixpoint str_take (n : nat) (s : string) : string :=
  match n, s with
  | S n', String c s' => String c (str_take n' s')
  | _, _ => EmptyString
  end.

Fixpoint str_drop (n : nat) (s : string) : string :=
  match n, s with
  | S n', String _ s' => str_drop n' s'
  | _, _ => s
  end.

(** [s == sep * len(s)] *)
Fixpoint all_sep (s : string) : bool :=
  match s with
  | EmptyString => true
  | String c s' => Ascii.eqb c sep && all_sep s'
  end.

(** [s.rstrip(sep)] *)
Fixpoint rstrip_sep (s : string) : string :=
  match s with
  | EmptyString => EmptyString
  | String c s' =>
      let r := rstrip_sep s' in
      if Ascii.eqb c sep && String.eqb r "" then EmptyString else String c r
  end.

(** [os.path.split(p)]: everything up to the last separator, and what
    follows it. *)
Definition os_path_split (p : string) : string * string :=
  let i := Z.to_nat (rfind sep p + 1) in
  let head := str_take i p in
  let tail := str_drop i p in
  let head :=
    if negb (String.eqb head "") && negb (all_sep head)
    then rstrip_sep head else head in
  (head, tail).

(** The loop of [genericpath._splitext] that skips leading dots: is there
    a character other than a dot in [p[filenameIndex:dotIndex]]? *)
Fixpoint splitext_scan (fuel : nat) (p : string) (filenameIndex dotIndex : Z)
  : bool :=
  match fuel with
  | O => false
  | S fuel' =>
      if Z.ltb filenameIndex dotIndex then
        match String.get (Z.to_nat filenameIndex) p with
        | Some c =>
            if negb (Ascii.eqb c extsep) then true
            else splitext_scan fuel' p (filenameIndex + 1) dotIndex
        | None => true
        end
      else false
  end.

(** [os.path.splitext(p)] *)
Definition os_path_splitext (p : string) : string * string :=
  let sepIndex := rfind sep p in
  let dotIndex := rfind extsep p in
  if Z.ltb sepIndex dotIndex
     && splitext_scan (String.length p) p (sepIndex + 1) dotIndex
  then (str_take (Z.to_nat dotIndex) p, str_drop (Z.to_nat dotIndex) p)
  else (p, "").

(** ** Exceptions, console messages and observable events *)

(** The exceptions that occur: the [Exception] that [main] raises itself,
    and the [OSError] family raised by [os], [tempfile], [shutil] and
    [subprocess].  Both are instances of Python's [Exception]. *)
Inductive exn : Type :=
| Exception (msg : string)
| OSError (msg : string).

Definition isinstance_Exception (e : exn) : bool :=
  match e with
  | Exception _ | OSError _ => true
  end.

Inductive result (A : Type) : Type :=
| Ok (a : A)
| Raise (e : exn).

Arguments Ok {A} a.
Arguments Raise {A} e.

(** The lines the script prints, by format string and arguments. *)
Inductive message : Type :=
| MsgDoesNotExist (iso : string)
    (* [✗] %s does not exist. Skipping... *)
| MsgExtracting (iso : string)
    (* [-] Extracting ntoskrnl.exe from %s... *)
| MsgFailedContainer (container iso stderr : string)
    (* [✗] Failed to extract %s from %s: "%s" *)
| MsgFailedKernel (container_name stderr : string)
    (* [✗] Failed to extract ntoskrnl.exe from %s: "%s" *)
| MsgSuccess (iso : string)
    (* [✓] Successfully extracted ntoskrnl.exe from %s *)
| MsgCleanupError (e : exn) (name : string)
    (* ERROR: {!r} while cleaning up {!r}, on sys.stderr *)
| MsgImplicitCleanup (name : string).
    (* Implicitly cleaning up {!r} *)

Inductive event : Type :=
| EvPrint (to_stderr : bool) (m : message)
| EvMkdtemp (d : string)
    (* a directory was created *)
| EvPopen (args : list string) (cwd : string)
    (* a subprocess launch was requested *)
| EvRmtree (d : string) (removed : bool)
    (* recursive deletion was requested, and whether it removed [d] *)
| EvMove (src dst : string) (moved : bool).
    (* a move was requested, and whether [dst] was written *)

(** ** The world outside the process *)

(** What one run of 7z does: its exit status, what it writes on standard
    error, and the names of the files it leaves in its working directory. *)
Record run_7z : Type := {
  returncode_of : Z;
  stderr_of : string;
  written_of : list string
}.

Record World : Type := {
  w_dirs : gset string;            (* the directories that exist *)
  w_files : gset string;           (* the regular files that exist *)
  w_cwd : string;                  (* os.getcwd() *)
  w_tempdir : string;              (* tempfile.gettempdir() *)
  w_realpath : string -> string;   (* os.path.realpath *)
  w_7z_on_path : bool;             (* is the 7z executable on the PATH? *)
  w_mkdtemp : list string;         (* random parts of successive mkdtemp names *)
  w_popen : list run_7z;           (* successive runs of 7z *)
  w_rmtree : list (option exn);    (* faults hit by successive rmtree calls *)
  w_move : list (option exn)       (* faults hit by successive move calls *)
}.

Definition set_dirs (ds : gset string) (w : World) : World :=
  {| w_dirs := ds; w_files := w_files w; w_cwd := w_cwd w;
     w_tempdir := w_tempdir w; w_realpath := w_realpath w;
     w_7z_on_path := w_7z_on_path w; w_mkdtemp := w_mkdtemp w;
     w_popen := w_popen w; w_rmtree := w_rmtree w;
     w_move := w_move w |}.

Definition set_files (fs : gset string) (w : World) : World :=
  {| w_dirs := w_dirs w; w_files := fs; w_cwd := w_cwd w;
     w_tempdir := w_tempdir w; w_realpath := w_realpath w;
     w_7z_on_path := w_7z_on_path w; w_mkdtemp := w_mkdtemp w;
     w_popen := w_popen w; w_rmtree := w_rmtree w;
     w_move := w_move w |}.

Definition set_mkdtemp (l : list string) (w : World) : World :=
  {| w_dirs := w_dirs w; w_files := w_files w; w_cwd := w_cwd w;
     w_tempdir := w_tempdir w; w_realpath := w_realpath w;
     w_7z_on_path := w_7z_on_path w; w_mkdtemp := l;
     w_popen := w_popen w; w_rmtree := w_rmtree w;
     w_move := w_move w |}.

Definition set_popen (l : list run_7z) (w : World) : World :=
  {| w_dirs := w_dirs w; w_files := w_files w; w_cwd := w_cwd w;
     w_tempdir := w_tempdir w; w_realpath := w_realpath w;
     w_7z_on_path := w_7z_on_path w; w_mkdtemp := w_mkdtemp w;
     w_popen := l; w_rmtree := w_rmtree w; w_move := w_move w |}.

Definition set_rmtree (l : list (option exn)) (w : World) : World :=
  {| w_dirs := w_dirs w; w_files := w_files w; w_cwd := w_cwd w;
     w_tempdir := w_tempdir w; w_realpath := w_realpath w;
     w_7z_on_path := w_7z_on_path w; w_mkdtemp := w_mkdtemp w;
     w_popen := w_popen w; w_rmtree := l; w_move := w_move w |}.

Definition set_move (l : list (option exn)) (w : World) : World :=
  {| w_dirs := w_dirs w; w_files := w_files w; w_cwd := w_cwd w;
     w_tempdir := w_tempdir w; w_realpath := w_realpath w;
     w_7z_on_path := w_7z_on_path w; w_mkdtemp := w_mkdtemp w;
     w_popen := w_popen w; w_rmtree := w_rmtree w; w_move := l |}.

(** [p] lies strictly below directory [d]. *)
Definition below (d p : string) : bool := String.prefix (d +:+ "/") p.

(** What remains of a set of paths once the tree at [d] is gone. *)
Definition prune (d : string) (ps : gset string) : gset string :=
  filter (λ p, p ≠ d ∧ below d p = false) ps.

(** ** The monad of the script: world, events, exceptions *)

Record Out (A : Type) : Type := mkOut {
  out_events : list event;
  out_world : World;
  out_res : result A
}.

Arguments mkOut {A} _ _ _.
Arguments out_events {A} _.
Arguments out_world {A} _.
Arguments out_res {A} _.

Definition M (A : Type) : Type := World -> Out A.

Definition ret {A} (a : A) : M A := fun w => mkOut [] w (Ok a).

Definition raise {A} (e : exn) : M A := fun w => mkOut [] w (Raise e).

Definition bind {A B} (m : M A) (k : A -> M B) : M B := fun w =>
  match m w with
  | mkOut ev w1 (Ok a) =>
      match k a w1 with
      | mkOut ev' w2 r => mkOut (ev ++ ev') w2 r
      end
  | mkOut ev w1 (Raise e) => mkOut ev w1 (Raise e)
  end.

Notation "x <- c ;;; k" := (bind c (fun x => k))
  (at level 100, c at next level, right associativity).
Notation "c ;;; k" := (bind c (fun _ => k))
  (at level 100, right associativity).

(** [try: m except Exception as e: handler e] *)
Definition try_except {A} (m : M A) (handler : exn -> M A) : M A := fun w =>
  match m w with
  | mkOut ev w1 (Raise e) =>
      if isinstance_Exception e then
        match handler e w1 with
        | mkOut ev' w2 r => mkOut (ev ++ ev') w2 r
        end
      else mkOut ev w1 (Raise e)
  | o => o
  end.

Definition emit (e : event) : M unit := fun w => mkOut [e] w (Ok tt).

Definition print (m : message) : M unit := emit (EvPrint false m).
Definition print_stderr (m : message) : M unit := emit (EvPrint true m).

(** ** The library calls the script makes *)

Definition os_path_isdir (p : string) : M bool := fun w =>
  mkOut [] w (Ok (bool_decide (p ∈ w_dirs w))).

Definition os_path_isfile (p : string) : M bool := fun w =>
  mkOut [] w (Ok (bool_decide (p ∈ w_files w))).

Definition os_path_realpath (p : string) : M string := fun w =>
  mkOut [] w (Ok (w_realpath w p)).

Definition os_getcwd : M string := fun w => mkOut [] w (Ok (w_cwd w)).

(** [tempfile.mkdtemp(suffix, prefix, dir)]: the next random name is
    tried below [dir] (the system temporary area when [dir] is [None]);
    the directory is created unless something of that name exists. *)
Definition tempfile_mkdtemp (suffix prefix : string) (dir_ : option string)
  : M string := fun w =>
  let dir := match dir_ with Some d => d | None => w_tempdir w end in
  match w_mkdtemp w with
  | [] => mkOut [] w (Raise (OSError "No usable temporary directory name found"))
  | r :: rest =>
      let file := os_path_join dir (prefix +:+ r +:+ suffix) in
      let w' := set_mkdtemp rest w in
      if bool_decide (file ∈ w_dirs w) || bool_decide (file ∈ w_files w)
      then mkOut [] w' (Raise (OSError "File exists"))
      else mkOut [EvMkdtemp file] (set_dirs ({[file]} ∪ w_dirs w) w') (Ok file)
  end.

(** The run of 7z that answers when the world has no more scripted. *)
Definition default_run : run_7z :=
  {| returncode_of := 2; stderr_of := "ERROR"; written_of := [] |}.

(** [subprocess.Popen(args, stdout=DEVNULL, stderr=PIPE, cwd=cwd)] followed
    by [communicate()]: launching fails when the executable is not on the
    PATH; otherwise the run leaves its files in [cwd] and yields its exit
    status and standard error. *)
Definition subprocess_Popen_communicate (args : list string) (cwd : string)
  : M (Z * string) := fun w =>
  if w_7z_on_path w then
    let r := hd default_run (w_popen w) in
    let fs := list_to_set (map (os_path_join cwd) (written_of r)) ∪ w_files w in
    mkOut [EvPopen args cwd] (set_files fs (set_popen (tl (w_popen w)) w))
          (Ok (returncode_of r, stderr_of r))
  else
    mkOut [EvPopen args cwd] w (Raise (OSError "No such file or directory: 7z")).

(** [shutil.rmtree(d)]: fails on the scripted fault if there is one, and
    when [d] is not a directory; otherwise [d] and all below it are gone. *)
Definition shutil_rmtree (d : string) : M unit := fun w =>
  let w' := set_rmtree (tl (w_rmtree w)) w in
  match hd None (w_rmtree w) with
  | Some e => mkOut [EvRmtree d false] w' (Raise e)
  | None =>
      if bool_decide (d ∈ w_dirs w) then
        mkOut [EvRmtree d true]
              (set_files (prune d (w_files w)) (set_dirs (prune d (w_dirs w)) w'))
              (Ok tt)
      else mkOut [EvRmtree d false] w' (Raise (OSError "No such file or directory"))
  end.

(** [shutil._basename(path)]: the last component, a trailing separator
    set aside. *)
Definition shutil_basename (path : string) : string :=
  snd (os_path_split (rstrip_sep path)).

(** Where [shutil.move(src, dst)] puts the file: inside [dst] under the
    base name of [src] when [dst] is an existing directory, at [dst]
    itself otherwise. *)
Definition real_dst (src dst : string) (w : World) : string :=
  if bool_decide (dst ∈ w_dirs w) then os_path_join dst (shutil_basename src)
  else dst.

(** [shutil.move(src, dst)] of a regular file.  When [dst] is an existing
    directory the file goes inside it, and the call raises if something
    of that name is there already.  Then the file is renamed (or copied
    and unlinked), replacing a file at the destination: this fails on the
    scripted fault if there is one (no permission, I/O error) and when
    [src] does not exist. *)
Definition shutil_move (src dst : string) : M unit := fun w =>
  let w' := set_move (tl (w_move w)) w in
  if bool_decide (dst ∈ w_dirs w)
     && (bool_decide (real_dst src dst w ∈ w_files w)
         || bool_decide (real_dst src dst w ∈ w_dirs w))
  then mkOut [EvMove src dst false] w
             (Raise (OSError "Destination path already exists"))
  else
    match hd None (w_move w) with
    | Some e => mkOut [EvMove src dst false] w' (Raise e)
    | None =>
        if bool_decide (src ∈ w_files w) then
          mkOut [EvMove src dst true]
                (set_files ({[real_dst src dst w]} ∪ (w_files w ∖ {[src]})) w')
                (Ok tt)
        else mkOut [EvMove src dst false] w'
                   (Raise (OSError "No such file or directory"))
    end.

(** ** The script *)

(** [NTOSKRNL_MAP.items()], in the order the dictionary is written. *)
Definition NTOSKRNL_MAP : list (string * (string * string)) :=
  [ ("en_windows_xp_professional_with_service_pack_3_x86_cd_x14-80428.iso",
      (os_path_join "I386" "NTOSKRNL.EX_",
       "ntoskrnl.exe"));
    ("en_windows_7_enterprise_with_sp1_x64_dvd_u_677651.iso",
      (os_path_join "sources" "install.wim",
       os_path_join (os_path_join "Windows" "System32") "ntoskrnl.exe"));
    ("en_windows_8_1_enterprise_x64_dvd_2971902.iso",
      (os_path_join "sources" "install.wim",
       os_path_join (os_path_join "Windows" "System32") "ntoskrnl.exe"));
    ("en_windows_10_enterprise_version_1703_updated_march_2017_x64_dvd_10189290.iso",
      (os_path_join "sources" "install.wim",
       os_path_join (os_path_join "Windows" "System32") "ntoskrnl.exe")) ].

(** An instance of [class TemporaryDirectory] once [__init__] has set
    both attributes.  (Should [mkdtemp] raise inside [__init__], the
    half-built instance has [name = None], which [cleanup] treats as
    nothing to do.) *)
Record TemporaryDirectory : Type := {
  _closed : bool;
  name : string
}.

Definition __init__ (suffix prefix : string) (dir_ : option string)
  : M TemporaryDirectory :=
  n <- tempfile_mkdtemp suffix prefix dir_ ;;;
  ret {| _closed := false; name := n |}.

Definition __enter__ (self : TemporaryDirectory) : string := name self.

(** [cleanup(self, warn)]; the updated instance is returned. *)
Definition cleanup (self : TemporaryDirectory) (warn : bool)
  : M TemporaryDirectory :=
  if negb (String.eqb (name self) "") && negb (_closed self) then
    removed <- try_except
                 (shutil_rmtree (name self) ;;; ret true)
                 (fun e =>
                    print_stderr (MsgCleanupError e (name self)) ;;;
                    ret false) ;;;
    if removed : bool then
      let self := {| _closed := true; name := name self |} in
      (if warn then print (MsgImplicitCleanup (name self)) else ret tt) ;;;
      ret self
    else ret self
  else ret self.

Definition __exit__ (self : TemporaryDirectory) : M TemporaryDirectory :=
  cleanup self false.

Definition __del__ (self : TemporaryDirectory) : M TemporaryDirectory :=
  cleanup self true.

(** [with TemporaryDirectory() as temp_dir: body].  [__exit__] runs
    however the body ends and, returning [None], lets an exception of the
    body through.  Nothing but the statement refers to the instance, so
    its reference count drops to zero as the statement is left and
    [__del__] runs there; what a finalizer raises is ignored. *)
Definition with_TemporaryDirectory {A} (body : string -> M A) : M A :=
  self <- __init__ "" "tmp" None ;;;
  fun w =>
    match body (__enter__ self) w with
    | mkOut ev1 w1 r =>
        match __exit__ self w1 with
        | mkOut ev2 w2 (Raise e) => mkOut (ev1 ++ ev2) w2 (Raise e)
        | mkOut ev2 w2 (Ok self) =>
            match __del__ self w2 with
            | mkOut ev3 w3 _ => mkOut (ev1 ++ ev2 ++ ev3) w3 r
            end
        end
    end.

(** [seven_zip_extract(source, files, dest)] *)
Definition seven_zip_extract (source : string) (files : list string)
  (dest : option string) : M (Z * string) :=
  dest <- match dest with
          | Some d => if String.eqb d "" then os_getcwd else ret d
          | None => os_getcwd
          end ;;;
  let args := (["7z"; "e"; source] ++ files)%list in
  subprocess_Popen_communicate args dest.

(** How the body of the [with] statement is left when nothing is raised:
    off its end, or by [continue]. *)
Inductive flow : Type := Fallthrough | Continue.

(** The body of the [with] statement in [main]. *)
Definition extract_kernel (iso container krnl iso_path output_dir temp_dir : string)
  : M flow :=
  print (MsgExtracting iso) ;;;
  (* Extract the kernel container *)
  hop1 <- seven_zip_extract iso_path [container] (Some temp_dir) ;;;
  let '(returncode, stderr) := hop1 in
  if negb (String.eqb stderr "") then
    print (MsgFailedContainer container iso stderr) ;;;
    ret Continue
  else
    let container_name := snd (os_path_split container) in
    let container_path := os_path_join temp_dir container_name in
    (* Extract the kernel executable *)
    hop2 <- seven_zip_extract container_path [krnl] (Some temp_dir) ;;;
    let '(returncode, stderr) := hop2 in
    if negb (Z.eqb returncode 0) then
      print (MsgFailedKernel container_name stderr) ;;;
      ret Continue
    else
      (* Rename the kernel executable and move it to the output directory *)
      let iso_name := fst (os_path_splitext iso) in
      shutil_move (os_path_join temp_dir "ntoskrnl.exe")
                  (os_path_join output_dir (iso_name +:+ "_ntoskrnl.exe")) ;;;
      ret Fallthrough.

(** One round of the [for] loop in [main]. *)
Definition main_round (iso_dir output_dir : string)
  (item : string * (string * string)) : M unit :=
  let '(iso, (container, krnl)) := item in
  let iso_path := os_path_join iso_dir iso in
  is_file <- os_path_isfile iso_path ;;;
  if negb is_file then
    print (MsgDoesNotExist iso)
  else
    f <- with_TemporaryDirectory
           (extract_kernel iso container krnl iso_path output_dir) ;;;
    match f with
    | Continue => ret tt
    | Fallthrough => print (MsgSuccess iso)
    end.

Fixpoint for_each {A} (items : list A) (round : A -> M unit) : M unit :=
  match items with
  | [] => ret tt
  | item :: rest => round item ;;; for_each rest round
  end.

(** The [for] loop of [main] over any sequence of items. *)
Definition main_loop (items : list (string * (string * string)))
  (iso_dir output_dir : string) : M unit :=
  for_each items (main_round iso_dir output_dir).

Module Args.
Record t : Type := { iso_dir : string; output_dir : string }.
End Args.

(** [main()], from the parsed arguments on. *)
Definition main (args : Args.t) : M unit :=
  let iso_dir := Args.iso_dir args in
  ok <- os_path_isdir iso_dir ;;;
  if negb ok then
    raise (Exception (iso_dir +:+ " is not a valid ISO directory"))
  else
    let output_dir := Args.output_dir args in
    ok <- os_path_isdir output_dir ;;;
    if negb ok then
      raise (Exception (output_dir +:+ " is not a valid output directory"))
    else
      iso_dir <- os_path_realpath iso_dir ;;;
      output_dir <- os_path_realpath output_dir ;;;
      main_loop NTOSKRNL_MAP iso_dir output_dir.

(** ** Observing a run *)

Definition is_popen (e : event) : bool :=
  match e with EvPopen _ _ => true | _ => false end.

Definition is_move (e : event) : bool :=
  match e with EvMove _ _ _ => true | _ => false end.

Definition is_rmtree (e : event) : bool :=
  match e with EvRmtree _ _ => true | _ => false end.

Definition is_mkdtemp (e : event) : bool :=
  match e with EvMkdtemp _ => true | _ => false end.

(** The lines by which [main] reports what became of an entry. *)
Definition is_outcome (e : event) : bool :=
  match e with
  | EvPrint false (MsgDoesNotExist _)
  | EvPrint false (MsgFailedContainer _ _ _)
  | EvPrint false (MsgFailedKernel _ _)
  | EvPrint false (MsgSuccess _) => true
  | _ => false
  end.

(** The entries a run has taken up, by the first line printed for each:
    the not-found line, or the line announcing the extraction. *)
Fixpoint attempted (evs : list event) : list string :=
  match evs with
  | [] => []
  | EvPrint false (MsgDoesNotExist iso) :: evs' => iso :: attempted evs'
  | EvPrint false (MsgExtracting iso) :: evs' => iso :: attempted evs'
  | _ :: evs' => attempted evs'
  end.

(** The stages of one round, each in the world its predecessor leaves:
    acquiring the workspace, hop 1, hop 2. *)
Definition acquired (w : World) : Out string :=
  tempfile_mkdtemp "" "tmp" None w.

Definition hop1 (iso_path container d : string) (w : World) : Out (Z * string) :=
  seven_zip_extract iso_path [container] (Some d) (out_world (acquired w)).

Definition hop2 (iso_path container krnl d : string) (w : World)
  : Out (Z * string) :=
  seven_zip_extract (os_path_join d (snd (os_path_split container))) [krnl]
                    (Some d) (out_world (hop1 iso_path container d w)).

(** Leaving the [with] statement on the instance named [d]: [__exit__],
    then the finalizer. *)
Definition released (d : string) : M TemporaryDirectory :=
  self <- __exit__ {| _closed := false; name := d |} ;;; __del__ self.

(** The world after [shutil.rmtree(d)] has gone through. *)
Definition removed (d : string) (w : World) : World :=
  set_files (prune d (w_files w))
            (set_dirs (prune d (w_dirs w)) (set_rmtree (tl (w_rmtree w)) w)).

(** ** Shapes of a run *)

(** Leaving the [with] statement never raises, and ends in one of three
    ways: the directory is removed on exit; the removal fails on exit and
    the finalizer removes it; or both attempts fail. *)
Inductive release_shape (d : string) (w : World) : Out TemporaryDirectory → Prop :=
| release_on_exit :
    hd None (w_rmtree w) = None → d ∈ w_dirs w →
    release_shape d w
      (mkOut [EvRmtree d true] (removed d w) (Ok {| _closed := true; name := d |}))
| release_by_finalizer (e : exn) :
    out_res (shutil_rmtree d w) = Raise e →
    hd None (tl (w_rmtree w)) = None → d ∈ w_dirs w →
    release_shape d w
      (mkOut [EvRmtree d false; EvPrint true (MsgCleanupError e d);
              EvRmtree d true; EvPrint false (MsgImplicitCleanup d)]
             (removed d (set_rmtree (tl (w_rmtree w)) w))
             (Ok {| _closed := true; name := d |}))
| release_failed (e e' : exn) :
    out_res (shutil_rmtree d w) = Raise e →
    out_res (shutil_rmtree d (set_rmtree (tl (w_rmtree w)) w)) = Raise e' →
    release_shape d w
      (mkOut [EvRmtree d false; EvPrint true (MsgCleanupError e d);
              EvRmtree d false; EvPrint true (MsgCleanupError e' d)]
             (set_rmtree (tl (tl (w_rmtree w))) w)
             (Ok {| _closed := false; name := d |})).

Section Round.

Variables (iso_dir output_dir iso container krnl d : string) (w : World).

Definition iso_path_of : string := os_path_join iso_dir iso.
Definition container_name_of : string := snd (os_path_split container).
Definition kernel_src : string := os_path_join d "ntoskrnl.exe".
Definition kernel_dst : string :=
  os_path_join output_dir (fst (os_path_splitext iso) +:+ "_ntoskrnl.exe").

Definition ev_extracting : event := EvPrint false (MsgExtracting iso).
Definition ev_hop1 : event := EvPopen ["7z"; "e"; iso_path_of; container] d.
Definition ev_hop2 : event :=
  EvPopen ["7z"; "e"; os_path_join d container_name_of; krnl] d.

(** The ways the body of the [with] statement can go. *)
Inductive body_shape : Out flow → Prop :=
| body_hop1_raises (e : exn) :
    out_res (hop1 iso_path_of container d w) = Raise e →
    body_shape (mkOut [ev_extracting; ev_hop1]
                      (out_world (hop1 iso_path_of container d w)) (Raise e))
| body_hop1_skip (returncode : Z) (stderr : string) :
    out_res (hop1 iso_path_of container d w) = Ok (returncode, stderr) →
    stderr ≠ "" →
    body_shape (mkOut [ev_extracting; ev_hop1;
                       EvPrint false (MsgFailedContainer container iso stderr)]
                      (out_world (hop1 iso_path_of container d w)) (Ok Continue))
| body_hop2_raises (returncode : Z) (e : exn) :
    out_res (hop1 iso_path_of container d w) = Ok (returncode, "") →
    out_res (hop2 iso_path_of container krnl d w) = Raise e →
    body_shape (mkOut [ev_extracting; ev_hop1; ev_hop2]
                      (out_world (hop2 iso_path_of container krnl d w)) (Raise e))
| body_hop2_skip (returncode returncode2 : Z) (stderr2 : string) :
    out_res (hop1 iso_path_of container d w) = Ok (returncode, "") →
    out_res (hop2 iso_path_of container krnl d w) = Ok (returncode2, stderr2) →
    returncode2 ≠ 0 →
    body_shape (mkOut [ev_extracting; ev_hop1; ev_hop2;
                       EvPrint false (MsgFailedKernel container_name_of stderr2)]
                      (out_world (hop2 iso_path_of container krnl d w))
                      (Ok Continue))
| body_moved (returncode : Z) (stderr2 : string) :
    out_res (hop1 iso_path_of container d w) = Ok (returncode, "") →
    out_res (hop2 iso_path_of container krnl d w) = Ok (0, stderr2) →
    out_res (shutil_move kernel_src kernel_dst
               (out_world (hop2 iso_path_of container krnl d w))) = Ok tt →
    body_shape (mkOut [ev_extracting; ev_hop1; ev_hop2;
                       EvMove kernel_src kernel_dst true]
                      (out_world (shutil_move kernel_src kernel_dst
                         (out_world (hop2 iso_path_of container krnl d w))))
                      (Ok Fallthrough))
| body_move_fails (returncode : Z) (stderr2 : string) (e : exn) :
    out_res (hop1 iso_path_of container d w) = Ok (returncode, "") →
    out_res (hop2 iso_path_of container krnl d w) = Ok (0, stderr2) →
    out_res (shutil_move kernel_src kernel_dst
               (out_world (hop2 iso_path_of container krnl d w))) = Raise e →
    body_shape (mkOut [ev_extracting; ev_hop1; ev_hop2;
                       EvMove kernel_src kernel_dst false]
                      (out_world (shutil_move kernel_src kernel_dst
                         (out_world (hop2 iso_path_of container krnl d w))))
                      (Raise e)).

End Round.

(** The line that reports a success. *)
Definition ev_success (iso : string) : list event :=
  [EvPrint false (MsgSuccess iso)].

(** What follows the [with] statement in a round, given how its body
    went: the success line after falling off the end, nothing after
    [continue]; an exception goes on. *)
Definition after_with (iso : string) (r : result flow)
  : list event * result unit :=
  match r with
  | Ok Fallthrough => (ev_success iso, Ok tt)
  | Ok Continue => ([], Ok tt)
  | Raise e => ([], Raise e)
  end.

(** The source archive of [item] is not in [iso_dir]. *)
Definition absent_in (iso_dir : string) (w : World)
  (item : string * (string * string)) : Prop :=
  os_path_join iso_dir (fst item) ∉ w_files w.

Definition ev_not_found (item : string * (string * string)) : event :=
  EvPrint false (MsgDoesNotExist (fst item)).

(** A computation that neither reads nor changes the faults scripted for
    [rmtree]. *)
Definition ignores_rmtree {A} (m : M A) : Prop :=
  ∀ (faults : list (option exn)) (w : World),
    m (set_rmtree faults w)
    = mkOut (out_events (m w)) (set_rmtree faults (out_world (m w)))
            (out_res (m w)).

(** ** Worlds to run the script in *)

Definition iso_xp : string :=
  "en_windows_xp_professional_with_service_pack_3_x86_cd_x14-80428.iso".
Definition iso_7 : string :=
  "en_windows_7_enterprise_with_sp1_x64_dvd_u_677651.iso".

Definition item_xp : string * (string * string) :=
  (iso_xp, (os_path_join "I386" "NTOSKRNL.EX_", "ntoskrnl.exe")).

Definition args0 : Args.t :=
  {| Args.iso_dir := "/isos"; Args.output_dir := "/out" |}.

Definition run (returncode : Z) (stderr : string) (written : list string)
  : run_7z :=
  {| returncode_of := returncode; stderr_of := stderr; written_of := written |}.

(** Both directories exist, no ISO is there, 7z is installed. *)
Definition world_empty : World :=
  {| w_dirs := {[ "/isos"; "/out"; "/tmp" ]}; w_files := ∅;
     w_cwd := "/"; w_tempdir := "/tmp"; w_realpath := fun p => p;
     w_7z_on_path := true; w_mkdtemp := ["a"; "b"; "c"; "d"];
     w_popen := []; w_rmtree := []; w_move := [] |}.

(** The XP ISO is there and both runs of 7z do their work. *)
Definition world_xp : World :=
  set_popen [run 0 "" ["NTOSKRNL.EX_"]; run 0 "" ["ntoskrnl.exe"]]
    (set_files {[ "/isos/" +:+ iso_xp ]} world_empty).

(** The output directory is missing. *)
Definition world_no_out : World :=
  set_dirs {[ "/isos"; "/tmp" ]} world_xp.

(** Hop 1 writes on standard error although it exits with status 0. *)
Definition world_hop1_noisy : World :=
  set_popen [run 0 "WARNING: broken header" ["NTOSKRNL.EX_"];
             run 0 "" ["ntoskrnl.exe"]] world_xp.

(** Hop 1 exits with status 1 and an empty standard error. *)
Definition world_hop1_status : World :=
  set_popen [run 1 "" ["NTOSKRNL.EX_"]; run 0 "" ["ntoskrnl.exe"]] world_xp.

(** Hop 2 exits with status 2. *)
Definition world_hop2_status : World :=
  set_popen [run 0 "" ["NTOSKRNL.EX_"]; run 2 "ERROR: CRC" []] world_xp.

(** Hop 2 exits with status 0 and a non-empty standard error. *)
Definition world_hop2_noisy : World :=
  set_popen [run 0 "" ["NTOSKRNL.EX_"]; run 0 "WARNING" ["ntoskrnl.exe"]]
    world_xp.

(** Hop 2 exits with status 0 and leaves no file ("No files to process"). *)
Definition world_hop2_nothing : World :=
  set_popen [run 0 "" ["NTOSKRNL.EX_"]; run 0 "" []]
    (set_files {[ "/isos/" +:+ iso_xp; "/isos/" +:+ iso_7 ]} world_empty).

(** Every recursive deletion fails. *)
Definition world_busy : World :=
  set_rmtree [Some (OSError "Device or resource busy");
              Some (OSError "Device or resource busy")] world_xp.

(** 7z is not installed; the Windows 7 ISO is there, the XP one is not. *)
Definition world_no_7z : World :=
  {| w_dirs := {[ "/isos"; "/out"; "/tmp" ]};
     w_files := {[ "/isos/" +:+ iso_7 ]};
     w_cwd := "/"; w_tempdir := "/tmp"; w_realpath := fun p => p;
     w_7z_on_path := false; w_mkdtemp := ["a"; "b"; "c"; "d"];
     w_popen := []; w_rmtree := []; w_move := [] |}.

(** A handle on the workspace [/tmp/tmpa] that has not been cleaned up. *)
Definition handle_open : TemporaryDirectory :=
  {| _closed := false; name := "/tmp/tmpa" |}.

(** The workspace [/tmp/tmpa] exists. *)
Definition world_tmpa : World :=
  set_dirs {[ "/isos"; "/out"; "/tmp"; "/tmp/tmpa" ]} world_xp.

Arguments os_path_join : simpl never.
Arguments os_path_split : simpl never.
Arguments os_path_splitext : simpl never.
Arguments prune : simpl never.
Arguments seven_zip_extract : simpl never.
Arguments shutil_rmtree : simpl never.
Arguments shutil_move : simpl never.
Arguments tempfile_mkdtemp : simpl never.
Arguments extract_kernel : simpl never.
Arguments released : simpl never.
Arguments acquired : simpl never.

(** ** Basic facts *)

Example join_rel : os_path_join "I386" "NTOSKRNL.EX_" = "I386/NTOSKRNL.EX_".
Proof. reflexivity. Qed.

Example join_abs : os_path_join "/in" "/x.iso" = "/x.iso".
Proof. reflexivity. Qed.

Example split_nested :
  os_path_split "Windows/System32/ntoskrnl.exe" = ("Windows/System32", "ntoskrnl.exe").
Proof. reflexivity. Qed.

Example split_plain : os_path_split "ntoskrnl.exe" = ("", "ntoskrnl.exe").
Proof. reflexivity. Qed.

Example splitext_iso : os_path_splitext "a.b.iso" = ("a.b", ".iso").
Proof. reflexivity. Qed.

Example splitext_hidden : os_path_splitext "dir/.bashrc" = ("dir/.bashrc", "").
Proof. reflexivity. Qed.

(** Runs of [main] on the worlds above. *)
Example run_xp :
  out_events (main args0 world_xp)
  = [EvMkdtemp "/tmp/tmpa";
     EvPrint false (MsgExtracting iso_xp);
     EvPopen ["7z"; "e"; "/isos/" +:+ iso_xp; "I386/NTOSKRNL.EX_"] "/tmp/tmpa";
     EvPopen ["7z"; "e"; "/tmp/tmpa/NTOSKRNL.EX_"; "ntoskrnl.exe"] "/tmp/tmpa";
     EvMove "/tmp/tmpa/ntoskrnl.exe"
            "/out/en_windows_xp_professional_with_service_pack_3_x86_cd_x14-80428_ntoskrnl.exe"
            true;
     EvRmtree "/tmp/tmpa" true;
     EvPrint false (MsgSuccess iso_xp);
     EvPrint false (MsgDoesNotExist iso_7);
     EvPrint false (MsgDoesNotExist "en_windows_8_1_enterprise_x64_dvd_2971902.iso");
     EvPrint false
       (MsgDoesNotExist
          "en_windows_10_enterprise_version_1703_updated_march_2017_x64_dvd_10189290.iso")]
  ∧ out_res (main args0 world_xp) = Ok tt.
Proof. split; vm_compute; reflexivity. Qed.

Example run_empty :
  List.filter is_mkdtemp (out_events (main args0 world_empty)) = []
  ∧ attempted (out_events (main args0 world_empty)) = map fst NTOSKRNL_MAP.
Proof. split; vm_compute; reflexivity. Qed.

Example run_hop1_status :
  List.filter is_outcome (out_events (main_round "/isos" "/out" item_xp world_hop1_status))
  = [EvPrint false (MsgSuccess iso_xp)].
Proof. vm_compute; reflexivity. Qed.

Example run_hop2_noisy :
  List.filter is_outcome (out_events (main_round "/isos" "/out" item_xp world_hop2_noisy))
  = [EvPrint false (MsgSuccess iso_xp)].
Proof. vm_compute; reflexivity. Qed.

Example run_busy :
  List.filter is_outcome (out_events (main_round "/isos" "/out" item_xp world_busy))
  = [EvPrint false (MsgSuccess iso_xp)]
  ∧ List.filter is_rmtree (out_events (main_round "/isos" "/out" item_xp world_busy))
    = [EvRmtree "/tmp/tmpa" false; EvRmtree "/tmp/tmpa" false].
Proof. split; vm_compute; reflexivity. Qed.

(** [shutil.move] on a world where the kernel has been extracted. *)
Example move_to_a_new_name :
  bool_decide ("/out/xp_ntoskrnl.exe"
                 ∈ w_files (out_world
                     (shutil_move "/tmp/tmpa/ntoskrnl.exe" "/out/xp_ntoskrnl.exe"
                        (set_files {[ "/tmp/tmpa/ntoskrnl.exe" ]} world_tmpa))))
  = true.
Proof. vm_compute; reflexivity. Qed.

Example move_into_a_directory :
  elements (w_files (out_world
     (shutil_move "/tmp/tmpa/ntoskrnl.exe" "/out"
        (set_files {[ "/tmp/tmpa/ntoskrnl.exe" ]} world_tmpa))))
  = ["/out/ntoskrnl.exe"].
Proof. vm_compute; reflexivity. Qed.

Example move_into_an_occupied_directory :
  out_res (shutil_move "/tmp/tmpa/ntoskrnl.exe" "/out"
             (set_files {[ "/tmp/tmpa/ntoskrnl.exe"; "/out/ntoskrnl.exe" ]}
                world_tmpa))
  = Raise (OSError "Destination path already exists").
Proof. vm_compute; reflexivity. Qed.

Example move_without_permission :
  out_res (shutil_move "/tmp/tmpa/ntoskrnl.exe" "/out/xp_ntoskrnl.exe"
             (set_move [Some (OSError "Permission denied")]
                (set_files {[ "/tmp/tmpa/ntoskrnl.exe" ]} world_tmpa)))
  = Raise (OSError "Permission denied").
Proof. vm_compute; reflexivity. Qed.

Lemma append_cons_nonempty (a : string) (c : ascii) (s : string) :
  a +:+ String c s ≠ "".
Proof. destruct a; discriminate. Qed.

Lemma os_path_join_nonempty (a b : string) : b ≠ "" → os_path_join a b ≠ "".
Proof.
  intros Hb. unfold os_path_join.
  destruct b as [|c b]; [done|].
  destruct (startswith_sep (String c b)); [done|].
  destruct (String.eqb a "" || endswith_sep a).
  - apply append_cons_nonempty.
  - destruct a; discriminate.
Qed.

Lemma acquired_cases (w : World) :
  (∃ e w', acquired w = mkOut [] w' (Raise e))
  ∨ (∃ d, d ≠ "" ∧ (d ∉ w_dirs w) ∧
          acquired w = mkOut [EvMkdtemp d]
                             (set_dirs ({[d]} ∪ w_dirs w)
                                       (set_mkdtemp (tl (w_mkdtemp w)) w))
                             (Ok d)).
Proof.
  unfold acquired, tempfile_mkdtemp.
  destruct (w_mkdtemp w) as [|r rest]; [left; eauto|].
  destruct (bool_decide _ || bool_decide _) eqn:E; [left; eauto|].
  right. eexists. split; [|split; [|reflexivity]].
  - apply os_path_join_nonempty. discriminate.
  - apply orb_false_iff in E as [E _]. by apply bool_decide_eq_false in E.
Qed.

Lemma acquired_Ok (w : World) (d : string) :
  out_res (acquired w) = Ok d →
  d ≠ "" ∧ (d ∉ w_dirs w) ∧
  acquired w = mkOut [EvMkdtemp d]
                     (set_dirs ({[d]} ∪ w_dirs w)
                               (set_mkdtemp (tl (w_mkdtemp w)) w))
                     (Ok d).
Proof.
  destruct (acquired_cases w) as [(e & w' & ->)|(d' & ? & ? & ->)]; simpl.
  - discriminate.
  - intros [= <-]. done.
Qed.

Lemma shutil_rmtree_cases (d : string) (w : World) :
  (∃ e, shutil_rmtree d w
        = mkOut [EvRmtree d false] (set_rmtree (tl (w_rmtree w)) w) (Raise e))
  ∨ (hd None (w_rmtree w) = None ∧ d ∈ w_dirs w ∧
     shutil_rmtree d w = mkOut [EvRmtree d true] (removed d w) (Ok tt)).
Proof.
  unfold shutil_rmtree.
  destruct (hd None (w_rmtree w)) as [e|]; [left; eauto|].
  destruct (bool_decide (d ∈ w_dirs w)) eqn:E; [|left; eauto].
  right. apply bool_decide_eq_true in E. done.
Qed.

Lemma shutil_rmtree_clean (d : string) (w : World) :
  hd None (w_rmtree w) = None → d ∈ w_dirs w →
  shutil_rmtree d w = mkOut [EvRmtree d true] (removed d w) (Ok tt).
Proof.
  intros H1 H2. unfold shutil_rmtree. rewrite H1.
  by rewrite bool_decide_eq_true_2.
Qed.

Lemma prune_gone (d : string) (ps : gset string) : d ∉ prune d ps.
Proof. unfold prune. rewrite elem_of_filter. tauto. Qed.

Lemma prune_below (d p : string) (ps : gset string) :
  below d p = true → p ∉ prune d ps.
Proof. unfold prune. rewrite elem_of_filter. intros -> [[_ ?] _]. done. Qed.

(** What [cleanup] does, case by case. *)
Lemma cleanup_idle (self : TemporaryDirectory) (warn : bool) (w : World) :
  name self = "" ∨ _closed self = true →
  cleanup self warn w = mkOut [] w (Ok self).
Proof.
  intros H. unfold cleanup.
  destruct H as [-> | ->]; simpl; [done|].
  by rewrite andb_false_r.
Qed.

Lemma cleanup_removes (self : TemporaryDirectory) (warn : bool) (w : World) :
  name self ≠ "" → _closed self = false →
  shutil_rmtree (name self) w
    = mkOut [EvRmtree (name self) true] (removed (name self) w) (Ok tt) →
  cleanup self warn w
  = mkOut (EvRmtree (name self) true
             :: if warn
                then [EvPrint false (MsgImplicitCleanup (name self))]
                else [])
          (removed (name self) w)
          (Ok {| _closed := true; name := name self |}).
Proof.
  intros Hn Hc Hr. unfold cleanup.
  apply String.eqb_neq in Hn. rewrite Hn, Hc. simpl.
  unfold bind, try_except. rewrite Hr. simpl.
  by destruct warn.
Qed.

Lemma cleanup_fails (self : TemporaryDirectory) (warn : bool) (w : World)
  (e : exn) :
  name self ≠ "" → _closed self = false →
  out_res (shutil_rmtree (name self) w) = Raise e →
  cleanup self warn w
  = mkOut [EvRmtree (name self) false;
           EvPrint true (MsgCleanupError e (name self))]
          (set_rmtree (tl (w_rmtree w)) w)
          (Ok self).
Proof.
  intros Hn Hc Hr. unfold cleanup.
  apply String.eqb_neq in Hn. rewrite Hn, Hc. simpl.
  unfold bind, try_except.
  destruct (shutil_rmtree_cases (name self) w) as [(e' & E)|(_ & _ & E)];
    rewrite E in Hr |- *; simpl in *; [|discriminate].
  injection Hr as ->. by destruct e.
Qed.

Lemma cleanup_never_raises (self : TemporaryDirectory) (warn : bool) (w : World) :
  ∃ self', out_res (cleanup self warn w) = Ok self' ∧ name self' = name self.
Proof.
  destruct (String.eqb_spec (name self) "") as [Hn|Hn].
  { rewrite cleanup_idle by auto. eauto. }
  destruct (_closed self) eqn:Hc.
  { rewrite cleanup_idle by auto. eauto. }
  destruct (shutil_rmtree_cases (name self) w) as [(e & E)|(_ & _ & E)].
  - rewrite (cleanup_fails _ _ _ e) by (done || (simpl; by rewrite E)). eauto.
  - rewrite cleanup_removes by done. eauto.
Qed.

Lemma set_rmtree_twice (l l' : list (option exn)) (w : World) :
  set_rmtree l (set_rmtree l' w) = set_rmtree l w.
Proof. reflexivity. Qed.

Lemma released_shape (d : string) (w : World) :
  d ≠ "" → release_shape d w (released d w).
Proof.
  intros Hd. unfold released, __exit__, __del__, bind.
  set (self := {| _closed := false; name := d |}).
  destruct (shutil_rmtree_cases d w) as [(e & E)|(H1 & H2 & E)].
  - rewrite (cleanup_fails self false w e) by (done || (simpl; by rewrite E)).
    set (w1 := set_rmtree (tl (w_rmtree w)) w).
    destruct (shutil_rmtree_cases d w1) as [(e' & E')|(H1' & H2' & E')].
    + rewrite (cleanup_fails self true w1 e') by (done || (simpl; by rewrite E')).
      subst w1. simpl. rewrite set_rmtree_twice.
      apply release_failed; [by rewrite E | by rewrite E'].
    + rewrite (cleanup_removes self true w1) by done. subst w1. simpl.
      apply release_by_finalizer; [by rewrite E | done | done].
  - rewrite (cleanup_removes self false w) by done.
    rewrite cleanup_idle by (right; done). simpl.
    by apply release_on_exit.
Qed.

(** The [with] statement is: acquire, body, release; its result is the
    body's. *)
Lemma with_TemporaryDirectory_eq {A} (body : string → M A) (w : World) (d : string) :
  out_res (acquired w) = Ok d →
  with_TemporaryDirectory body w
  = mkOut (EvMkdtemp d
             :: out_events (body d (out_world (acquired w)))
             ++ out_events (released d (out_world (body d (out_world (acquired w))))))
          (out_world (released d (out_world (body d (out_world (acquired w))))))
          (out_res (body d (out_world (acquired w)))).
Proof.
  intros Hd. apply acquired_Ok in Hd as (Hne & _ & E).
  unfold with_TemporaryDirectory, __init__, bind, ret.
  unfold acquired in *. rewrite E. simpl. unfold __enter__. simpl.
  destruct (body d _) as [ev1 w1 r] eqn:Eb. simpl.
  unfold released, bind.
  destruct (cleanup_never_raises {| _closed := false; name := d |} false w1)
    as (self' & Hs & _).
  unfold __exit__ in *.
  destruct (cleanup _ false w1) as [ev2 w2 r2]. simpl in Hs. subst r2.
  destruct (cleanup_never_raises self' true w2) as (self'' & Hs' & _).
  unfold __del__.
  by destruct (cleanup self' true w2) as [ev3 w3 r3].
Qed.

Lemma with_TemporaryDirectory_raise {A} (body : string → M A) (w : World) (e : exn) :
  out_res (acquired w) = Raise e →
  with_TemporaryDirectory body w
  = mkOut [] (out_world (acquired w)) (Raise e).
Proof.
  intros Hd.
  destruct (acquired_cases w) as [(e' & w' & E)|(d & _ & _ & E)];
    rewrite E in Hd; simpl in Hd; [|discriminate].
  injection Hd as ->.
  unfold with_TemporaryDirectory, __init__, bind.
  unfold acquired in *. by rewrite E.
Qed.

(** What [shutil.move] shows and what it leaves alone. *)
Lemma shutil_move_events (src dst : string) (w : World) :
  out_events (shutil_move src dst w)
  = [EvMove src dst
            match out_res (shutil_move src dst w) with
            | Ok _ => true
            | Raise _ => false
            end].
Proof.
  unfold shutil_move.
  destruct (_ && _); [done|].
  destruct (hd None (w_move w)); [done|].
  by destruct (bool_decide (src ∈ w_files w)).
Qed.

Lemma shutil_move_frame (src dst : string) (w : World) :
  w_dirs (out_world (shutil_move src dst w)) = w_dirs w
  ∧ w_rmtree (out_world (shutil_move src dst w)) = w_rmtree w.
Proof.
  unfold shutil_move.
  destruct (_ && _); [done|].
  destruct (hd None (w_move w)); [done|].
  by destruct (bool_decide (src ∈ w_files w)).
Qed.

(** ** The shape of one round *)

Lemma seven_zip_extract_eq (source : string) (files : list string) (d : string)
  (w : World) :
  d ≠ "" →
  seven_zip_extract source files (Some d) w
  = subprocess_Popen_communicate ("7z" :: "e" :: source :: files) d w.
Proof.
  intros Hd. unfold seven_zip_extract, bind.
  apply String.eqb_neq in Hd. rewrite Hd. unfold ret. simpl.
  by destruct (subprocess_Popen_communicate _ d w).
Qed.

Lemma seven_zip_extract_frame (source : string) (files : list string) (d : string)
  (w : World) :
  d ≠ "" →
  out_events (seven_zip_extract source files (Some d) w)
    = [EvPopen ("7z" :: "e" :: source :: files) d]
  ∧ w_dirs (out_world (seven_zip_extract source files (Some d) w)) = w_dirs w
  ∧ w_rmtree (out_world (seven_zip_extract source files (Some d) w)) = w_rmtree w
  ∧ w_7z_on_path (out_world (seven_zip_extract source files (Some d) w))
    = w_7z_on_path w.
Proof.
  intros Hd. rewrite seven_zip_extract_eq by done.
  unfold subprocess_Popen_communicate.
  destruct (w_7z_on_path w) eqn:E; simpl; auto.
Qed.

Lemma seven_zip_extract_absent (source : string) (files : list string)
  (d : string) (w : World) :
  d ≠ "" → w_7z_on_path w = false →
  seven_zip_extract source files (Some d) w
  = mkOut [EvPopen ("7z" :: "e" :: source :: files) d] w
          (Raise (OSError "No such file or directory: 7z")).
Proof.
  intros Hd H. rewrite seven_zip_extract_eq by done.
  unfold subprocess_Popen_communicate. by rewrite H.
Qed.

Lemma extract_kernel_shape (iso_dir output_dir iso container krnl d : string)
  (w : World) :
  d ≠ "" →
  body_shape iso_dir output_dir iso container krnl d w
    (extract_kernel iso container krnl (iso_path_of iso_dir iso) output_dir d
                    (out_world (acquired w))).
Proof.
  intros d_nonempty.
  pose proof (seven_zip_extract_frame (iso_path_of iso_dir iso) [container] d
                (out_world (acquired w)) d_nonempty) as (Ev1 & _).
  unfold extract_kernel, bind, print, emit.
  fold (hop1 (iso_path_of iso_dir iso) container d w) in *.
  pose proof (body_hop1_raises iso_dir output_dir iso container krnl d w) as K1. pose proof (body_hop1_skip iso_dir output_dir iso container krnl d w) as K2.
  pose proof (body_hop2_raises iso_dir output_dir iso container krnl d w) as K3. pose proof (body_hop2_skip iso_dir output_dir iso container krnl d w) as K4.
  pose proof (body_moved iso_dir output_dir iso container krnl d w) as K5. pose proof (body_move_fails iso_dir output_dir iso container krnl d w) as K6.
  assert (Eh2 : hop2 (iso_path_of iso_dir iso) container krnl d w
                = seven_zip_extract
                    (os_path_join d (snd (os_path_split container))) [krnl]
                    (Some d) (out_world (hop1 (iso_path_of iso_dir iso) container d w)))
    by reflexivity.
  destruct (hop1 (iso_path_of iso_dir iso) container d w) as [ev1 w1 [[rc1 s1]|e1]] eqn:E1;
    cbn in *; subst ev1.
  2: { by apply K1. }
  destruct (String.eqb_spec s1 "") as [->|Hs1]; cbn.
  2: { unfold ret. by apply (K2 rc1 s1). }
  pose proof (seven_zip_extract_frame
                (os_path_join d (snd (os_path_split container))) [krnl] d
                w1 d_nonempty) as (Ev2 & _).
  rewrite <- Eh2 in *.
  destruct (hop2 (iso_path_of iso_dir iso) container krnl d w) as [ev2 w2 [[rc2 s2]|e2]] eqn:E2;
    cbn in *; subst ev2.
  2: { by apply (K3 rc1). }
  destruct (Z.eqb_spec rc2 0) as [->|Hrc2]; cbn.
  2: { unfold ret. by apply (K4 rc1 rc2 s2). }
  fold (kernel_src d) (kernel_dst output_dir iso).
  pose proof (shutil_move_events (kernel_src d) (kernel_dst output_dir iso) w2)
    as Evm.
  destruct (shutil_move (kernel_src d) (kernel_dst output_dir iso) w2)
    as [evm wm [[]|em]] eqn:Em; cbn in *; subst evm.
  - by apply (K5 rc1 s2).
  - by apply (K6 rc1 s2 em).
Qed.

Lemma main_round_absent (iso_dir output_dir iso container krnl : string)
  (w : World) :
  iso_path_of iso_dir iso ∉ w_files w →
  main_round iso_dir output_dir (iso, (container, krnl)) w
  = mkOut [EvPrint false (MsgDoesNotExist iso)] w (Ok tt).
Proof.
  intros H. unfold main_round, bind, os_path_isfile.
  fold (iso_path_of iso_dir iso).
  by rewrite bool_decide_eq_false_2.
Qed.

Lemma main_round_no_workspace (iso_dir output_dir iso container krnl : string)
  (w : World) (e : exn) :
  iso_path_of iso_dir iso ∈ w_files w →
  out_res (acquired w) = Raise e →
  main_round iso_dir output_dir (iso, (container, krnl)) w
  = mkOut [] (out_world (acquired w)) (Raise e).
Proof.
  intros H He. unfold main_round, bind, os_path_isfile.
  fold (iso_path_of iso_dir iso).
  rewrite bool_decide_eq_true_2 by done. cbn.
  by rewrite (with_TemporaryDirectory_raise _ w e).
Qed.

Lemma main_round_present (iso_dir output_dir iso container krnl d : string)
  (w : World) :
  iso_path_of iso_dir iso ∈ w_files w →
  out_res (acquired w) = Ok d →
  main_round iso_dir output_dir (iso, (container, krnl)) w
  = mkOut
      (EvMkdtemp d
         :: out_events (extract_kernel iso container krnl
                          (iso_path_of iso_dir iso) output_dir d
                          (out_world (acquired w)))
         ++ out_events (released d (out_world
              (extract_kernel iso container krnl (iso_path_of iso_dir iso)
                 output_dir d (out_world (acquired w)))))
         ++ fst (after_with iso (out_res
              (extract_kernel iso container krnl (iso_path_of iso_dir iso)
                 output_dir d (out_world (acquired w))))))
      (out_world (released d (out_world
         (extract_kernel iso container krnl (iso_path_of iso_dir iso)
            output_dir d (out_world (acquired w))))))
      (snd (after_with iso (out_res
         (extract_kernel iso container krnl (iso_path_of iso_dir iso)
            output_dir d (out_world (acquired w)))))).
Proof.
  intros H Hd. unfold main_round, bind, os_path_isfile.
  fold (iso_path_of iso_dir iso).
  rewrite bool_decide_eq_true_2 by done. cbn.
  rewrite (with_TemporaryDirectory_eq _ w d) by done.
  destruct (extract_kernel _ _ _ _ _ _ _) as [evb wb [[|]|e]]; cbn.
  - by rewrite <- app_assoc.
  - by rewrite !app_nil_r.
  - by rewrite !app_nil_r.
Qed.

(** The body of the [with] statement creates and deletes no directory
    and does not call [rmtree]. *)
Lemma body_shape_frame (iso_dir output_dir iso container krnl d : string)
  (w : World) (b : Out flow) :
  d ≠ "" →
  body_shape iso_dir output_dir iso container krnl d w b →
  w_dirs (out_world b) = w_dirs (out_world (acquired w))
  ∧ w_rmtree (out_world b) = w_rmtree (out_world (acquired w)).
Proof.
  intros Hd Hb.
  pose proof (seven_zip_extract_frame (iso_path_of iso_dir iso) [container] d
                (out_world (acquired w)) Hd) as (_ & D1 & R1 & _).
  pose proof (seven_zip_extract_frame
                (os_path_join d (snd (os_path_split container))) [krnl] d
                (out_world (hop1 (iso_path_of iso_dir iso) container d w)) Hd)
    as (_ & D2 & R2 & _).
  fold (hop1 (iso_path_of iso_dir iso) container d w) in D1, R1.
  fold (hop2 (iso_path_of iso_dir iso) container krnl d w) in D2, R2.
  assert (w_dirs (out_world (hop2 (iso_path_of iso_dir iso) container krnl d w))
          = w_dirs (out_world (acquired w))) as D by congruence.
  assert (w_rmtree (out_world (hop2 (iso_path_of iso_dir iso) container krnl d w))
          = w_rmtree (out_world (acquired w))) as R by congruence.
  destruct (shutil_move_frame (kernel_src d) (kernel_dst output_dir iso)
              (out_world (hop2 (iso_path_of iso_dir iso) container krnl d w)))
    as [Dm Rm].
  destruct Hb; cbn; try done; split; congruence.
Qed.

(** Leaving the [with] statement launches nothing, moves nothing and
    prints no outcome line. *)
Lemma released_quiet (d : string) (w : World) :
  d ≠ "" →
  List.filter is_popen (out_events (released d w)) = []
  ∧ List.filter is_move (out_events (released d w)) = []
  ∧ List.filter is_outcome (out_events (released d w)) = []
  ∧ attempted (out_events (released d w)) = [].
Proof.
  intros Hd. by destruct (released_shape d w Hd).
Qed.

Lemma prune_keeps (d p : string) (ps : gset string) :
  p ≠ d → below d p = false → (p ∈ prune d ps ↔ p ∈ ps).
Proof. unfold prune. rewrite elem_of_filter. tauto. Qed.

Lemma acquired_Raise (w : World) (e : exn) :
  out_res (acquired w) = Raise e →
  w_dirs (out_world (acquired w)) = w_dirs w
  ∧ w_files (out_world (acquired w)) = w_files w.
Proof.
  unfold acquired, tempfile_mkdtemp.
  destruct (w_mkdtemp w); [done|].
  by destruct (bool_decide _ || bool_decide _).
Qed.

Lemma acquired_fresh (w : World) (d : string) :
  out_res (acquired w) = Ok d →
  (d ∉ w_files w)
  ∧ w_files (out_world (acquired w)) = w_files w
  ∧ w_dirs (out_world (acquired w)) = {[d]} ∪ w_dirs w.
Proof.
  unfold acquired, tempfile_mkdtemp.
  destruct (w_mkdtemp w); [done|].
  destruct (bool_decide _ || bool_decide _) eqn:E; [done|].
  cbn. intros [= <-].
  apply orb_false_iff in E as [_ E]. by apply bool_decide_eq_false in E.
Qed.

Lemma released_is_local (d : string) (w : World) (p : string) :
  d ≠ "" → p ≠ d → below d p = false →
  (p ∈ w_dirs (out_world (released d w)) ↔ p ∈ w_dirs w)
  ∧ (p ∈ w_files (out_world (released d w)) ↔ p ∈ w_files w).
Proof.
  intros Hd Hp Hb.
  destruct (released_shape d w Hd); cbn; try done; split; by apply prune_keeps.
Qed.

Lemma acquired_keeps_move (w : World) :
  w_move (out_world (acquired w)) = w_move w.
Proof.
  unfold acquired, tempfile_mkdtemp.
  destruct (w_mkdtemp w); [done|].
  by destruct (bool_decide _ || bool_decide _).
Qed.

Lemma seven_zip_extract_keeps_move (source : string) (files : list string)
  (dest : option string) (w : World) :
  w_move (out_world (seven_zip_extract source files dest w)) = w_move w.
Proof.
  unfold seven_zip_extract, bind, subprocess_Popen_communicate, os_getcwd, ret.
  destruct dest as [d|]; [destruct (String.eqb d "")|];
    by destruct (w_7z_on_path w).
Qed.

(** The world in which the move is made. *)
Lemma hop2_world (iso_path container krnl d : string) (w : World) :
  out_res (acquired w) = Ok d →
  w_dirs (out_world (hop2 iso_path container krnl d w)) = {[d]} ∪ w_dirs w
  ∧ w_move (out_world (hop2 iso_path container krnl d w)) = w_move w.
Proof.
  intros Hd. destruct (acquired_Ok w d Hd) as (Hne & _ & _).
  destruct (acquired_fresh w d Hd) as (_ & _ & Ed).
  unfold hop2, hop1. split.
  - destruct (seven_zip_extract_frame
                (os_path_join d (snd (os_path_split container))) [krnl] d
                (out_world (seven_zip_extract iso_path [container] (Some d)
                              (out_world (acquired w)))) Hne) as (_ & -> & _).
    destruct (seven_zip_extract_frame iso_path [container] d
                (out_world (acquired w)) Hne) as (_ & -> & _).
    done.
  - by rewrite !seven_zip_extract_keeps_move, acquired_keeps_move.
Qed.

(** When [shutil.move] goes through to the very name [dst]. *)
Lemma shutil_move_ok (src dst : string) (w : World) :
  dst ∉ w_dirs w → hd None (w_move w) = None → src ∈ w_files w →
  shutil_move src dst w
  = mkOut [EvMove src dst true]
          (set_files ({[dst]} ∪ (w_files w ∖ {[src]})) (set_move (tl (w_move w)) w))
          (Ok tt).
Proof.
  intros Hdir Hmv Hsrc. unfold shutil_move, real_dst.
  rewrite (bool_decide_eq_false_2 _ Hdir), Hmv. cbn.
  by rewrite (bool_decide_eq_true_2 _ Hsrc).
Qed.

(** With both directories in place, [main] is the loop over the catalog
    on the resolved directories. *)
Lemma main_valid (args : Args.t) (w : World) :
  Args.iso_dir args ∈ w_dirs w →
  Args.output_dir args ∈ w_dirs w →
  main args w
  = main_loop NTOSKRNL_MAP (w_realpath w (Args.iso_dir args))
              (w_realpath w (Args.output_dir args)) w.
Proof.
  intros H1 H2. unfold main.
  remember (main_loop NTOSKRNL_MAP) as loop eqn:E. clear E.
  unfold bind, os_path_isdir, os_path_realpath. cbn.
  rewrite (bool_decide_eq_true_2 _ H1). cbn.
  rewrite (bool_decide_eq_true_2 _ H2). cbn.
  by destruct (loop _ _ w).
Qed.

Lemma main_invalid (args : Args.t) (w : World) :
  ¬ (Args.iso_dir args ∈ w_dirs w ∧ Args.output_dir args ∈ w_dirs w) →
  out_events (main args w) = [].
Proof.
  intros H. unfold main.
  remember (main_loop NTOSKRNL_MAP) as loop eqn:E. clear E.
  unfold bind, os_path_isdir, raise. cbn.
  destruct (bool_decide (Args.iso_dir args ∈ w_dirs w)) eqn:E1; cbn; [|done].
  destruct (bool_decide (Args.output_dir args ∈ w_dirs w)) eqn:E2; cbn; [|done].
  apply bool_decide_eq_true in E1, E2. tauto.
Qed.

(** Membership in a concrete set of paths, by evaluation. *)
Ltac by_evaluation :=
  match goal with
  | |- ?x ∉ ?s =>
      refine (bool_decide_eq_false_1 (x ∈ s) _); vm_compute; reflexivity
  | |- ?x ∈ ?s =>
      refine (bool_decide_eq_true_1 (x ∈ s) _); vm_compute; reflexivity
  | |- _ => vm_compute; reflexivity
  end.

(** ** The claims *)

(** C6. An entry whose source archive [os.path.join(iso_dir, iso)] is not
    an existing file gets the not-found line and nothing else: no workspace
    is created, 7z is not launched, the world is untouched, and the loop
    goes on with the entries that follow. *)
Theorem absent_source_is_skipped
  (iso_dir output_dir iso container krnl : string)
  (rest : list (string * (string * string))) (w : World) :
  os_path_join iso_dir iso ∉ w_files w →
  main_round iso_dir output_dir (iso, (container, krnl)) w
    = mkOut [EvPrint false (MsgDoesNotExist iso)] w (Ok tt)
  ∧ main_loop ((iso, (container, krnl)) :: rest) iso_dir output_dir w
    = mkOut (EvPrint false (MsgDoesNotExist iso)
               :: out_events (main_loop rest iso_dir output_dir w))
            (out_world (main_loop rest iso_dir output_dir w))
            (out_res (main_loop rest iso_dir output_dir w)).
Proof.
  intros H.
  pose proof (main_round_absent iso_dir output_dir iso container krnl w H) as E.
  split; [exact E|].
  unfold main_loop. cbn [for_each]. unfold bind at 1. rewrite E.
  by destruct (for_each rest _ w).
Qed.

Lemma absent_source_is_skipped_witness :
  main_round "/isos" "/out" item_xp world_empty
    = mkOut [EvPrint false (MsgDoesNotExist iso_xp)] world_empty (Ok tt)
  ∧ main_loop (item_xp :: []) "/isos" "/out" world_empty
    = mkOut (EvPrint false (MsgDoesNotExist iso_xp)
               :: out_events (main_loop [] "/isos" "/out" world_empty))
            (out_world (main_loop [] "/isos" "/out" world_empty))
            (out_res (main_loop [] "/isos" "/out" world_empty)).
Proof.
  apply (absent_source_is_skipped "/isos" "/out" iso_xp
           (os_path_join "I386" "NTOSKRNL.EX_") "ntoskrnl.exe" [] world_empty).
  by_evaluation.
Defined.

(** C7. When the ISO directory or the output directory is not an existing
    directory, [main] raises an exception that names the offending
    directory before it looks at any entry: nothing is printed, no
    workspace is created, 7z is not launched and the world is untouched. *)
Theorem invalid_directory_is_fatal (args : Args.t) (w : World) :
  Args.iso_dir args ∉ w_dirs w ∨ Args.output_dir args ∉ w_dirs w →
  main args w
  = mkOut [] w
      (Raise (Exception
         (if bool_decide (Args.iso_dir args ∈ w_dirs w)
          then Args.output_dir args +:+ " is not a valid output directory"
          else Args.iso_dir args +:+ " is not a valid ISO directory"))).
Proof.
  intros H. unfold main, bind, os_path_isdir, raise.
  destruct (bool_decide (Args.iso_dir args ∈ w_dirs w)) eqn:E1; cbn; [|done].
  apply bool_decide_eq_true in E1.
  destruct H as [H|H]; [done|].
  by rewrite bool_decide_eq_false_2.
Qed.

Lemma invalid_directory_is_fatal_witness :
  main args0 world_no_out
  = mkOut [] world_no_out
      (Raise (Exception "/out is not a valid output directory")).
Proof.
  apply (invalid_directory_is_fatal args0 world_no_out).
  right. by_evaluation.
Defined.

(** Case analysis on a round that found its source archive and acquired
    its workspace [d]: rewrites the round into its events and result and
    splits on how the body of the [with] statement went. *)
Ltac round_cases Hf Hd :=
  let Hne := fresh "Hne" in
  let Hb := fresh "Hb" in
  let Hq := fresh "Hq" in
  match type of Hd with
  | out_res (acquired ?w) = Ok ?d =>
      destruct (acquired_Ok w d Hd) as (Hne & _ & _);
      match type of Hf with
      | os_path_join ?iso_dir ?iso ∈ _ =>
          match goal with
          | |- context [main_round iso_dir ?output_dir (iso, (?container, ?krnl)) w] =>
              rewrite !(main_round_present iso_dir output_dir iso container krnl d w Hf Hd);
              pose proof (extract_kernel_shape iso_dir output_dir iso container
                            krnl d w Hne) as Hb;
              pose proof (released_quiet d (out_world
                            (extract_kernel iso container krnl
                               (iso_path_of iso_dir iso) output_dir d
                               (out_world (acquired w)))) Hne) as Hq;
              revert Hq;
              destruct Hb; cbn [out_events out_world out_res after_with fst snd];
              intros (Hq1 & Hq2 & Hq3 & Hq4)
          end
      end
  end.

(** Closes goals on the events of a round once [round_cases] has split
    them. *)
Ltac events_done :=
  repeat (rewrite ?app_nil_r, ?List.filter_app; cbn);
  repeat match goal with
         | H : List.filter _ (out_events (released _ _)) = [] |- _ =>
             rewrite H; clear H
         | H : attempted (out_events (released _ _)) = [] |- _ =>
             try rewrite H; clear H
         end;
  cbn; repeat split; try reflexivity; try done.

(** C2. Hop 1 fails exactly when 7z wrote something on standard error,
    whatever its exit status.  With a non-empty [stderr] the round
    launches no second 7z, requests no move, reports the failed container
    and ends normally (the loop goes on); with an empty [stderr] the round
    goes on to launch hop 2 on the container inside the workspace, also
    when the status of hop 1 is not zero. *)
Theorem hop1_failure_is_the_diagnostic
  (iso_dir output_dir iso container krnl d : string) (w : World)
  (returncode : Z) (stderr : string) :
  os_path_join iso_dir iso ∈ w_files w →
  out_res (acquired w) = Ok d →
  out_res (hop1 (os_path_join iso_dir iso) container d w)
    = Ok (returncode, stderr) →
  (stderr ≠ "" →
     List.filter is_popen
       (out_events (main_round iso_dir output_dir (iso, (container, krnl)) w))
       = [EvPopen ["7z"; "e"; os_path_join iso_dir iso; container] d]
     ∧ List.filter is_move
         (out_events (main_round iso_dir output_dir (iso, (container, krnl)) w))
       = []
     ∧ List.filter is_outcome
         (out_events (main_round iso_dir output_dir (iso, (container, krnl)) w))
       = [EvPrint false (MsgFailedContainer container iso stderr)]
     ∧ out_res (main_round iso_dir output_dir (iso, (container, krnl)) w)
       = Ok tt)
  ∧ (stderr = "" →
     List.filter is_popen
       (out_events (main_round iso_dir output_dir (iso, (container, krnl)) w))
       = [EvPopen ["7z"; "e"; os_path_join iso_dir iso; container] d;
          EvPopen ["7z"; "e"; os_path_join d (snd (os_path_split container)); krnl]
                  d]).
Proof.
  intros Hf Hd Hh.
  split; intros Hs; round_cases Hf Hd;
    unfold iso_path_of in *;
    match goal with
    | H : out_res (hop1 _ _ _ _) = _ |- _ => rewrite Hh in H; inversion H; subst
    end;
    try done; events_done.
Qed.

Lemma hop1_failure_is_the_diagnostic_witness :
  List.filter is_popen
    (out_events (main_round "/isos" "/out" item_xp world_hop1_noisy))
    = [EvPopen ["7z"; "e"; os_path_join "/isos" iso_xp;
                os_path_join "I386" "NTOSKRNL.EX_"] "/tmp/tmpa"]
  ∧ List.filter is_move
      (out_events (main_round "/isos" "/out" item_xp world_hop1_noisy)) = []
  ∧ List.filter is_outcome
      (out_events (main_round "/isos" "/out" item_xp world_hop1_noisy))
    = [EvPrint false
         (MsgFailedContainer (os_path_join "I386" "NTOSKRNL.EX_") iso_xp
            "WARNING: broken header")]
  ∧ out_res (main_round "/isos" "/out" item_xp world_hop1_noisy) = Ok tt.
Proof.
  refine (proj1 (hop1_failure_is_the_diagnostic "/isos" "/out" iso_xp
                   (os_path_join "I386" "NTOSKRNL.EX_") "ntoskrnl.exe"
                   "/tmp/tmpa" world_hop1_noisy 0 "WARNING: broken header"
                   _ _ _) _).
  - by_evaluation.
  - by_evaluation.
  - by_evaluation.
  - discriminate.
Defined.

(** C3. Once hop 2 is reached, it fails exactly when the exit status of
    7z is not zero, whatever it wrote on standard error.  With a non-zero
    status the round requests no move, reports the failed kernel and ends
    normally; with status zero the round goes on to the move of
    [ntoskrnl.exe] out of the workspace, also when [stderr] is not empty. *)
Theorem hop2_failure_is_the_status
  (iso_dir output_dir iso container krnl d : string) (w : World)
  (returncode returncode2 : Z) (stderr2 : string) :
  os_path_join iso_dir iso ∈ w_files w →
  out_res (acquired w) = Ok d →
  out_res (hop1 (os_path_join iso_dir iso) container d w)
    = Ok (returncode, "") →
  out_res (hop2 (os_path_join iso_dir iso) container krnl d w)
    = Ok (returncode2, stderr2) →
  (returncode2 ≠ 0 →
     List.filter is_move
       (out_events (main_round iso_dir output_dir (iso, (container, krnl)) w))
       = []
     ∧ List.filter is_outcome
         (out_events (main_round iso_dir output_dir (iso, (container, krnl)) w))
       = [EvPrint false
            (MsgFailedKernel (snd (os_path_split container)) stderr2)]
     ∧ out_res (main_round iso_dir output_dir (iso, (container, krnl)) w)
       = Ok tt)
  ∧ (returncode2 = 0 →
     ∃ moved : bool,
       List.filter is_move
         (out_events (main_round iso_dir output_dir (iso, (container, krnl)) w))
       = [EvMove (os_path_join d "ntoskrnl.exe")
                 (os_path_join output_dir
                    (fst (os_path_splitext iso) +:+ "_ntoskrnl.exe"))
                 moved]).
Proof.
  intros Hf Hd Hh1 Hh2.
  split; intros Hs; round_cases Hf Hd;
    unfold iso_path_of in *;
    repeat match goal with
    | H : out_res (hop1 _ _ _ _) = _ |- _ =>
        rewrite Hh1 in H; inversion H; subst; clear H
    | H : out_res (hop2 _ _ _ _ _) = _ |- _ =>
        rewrite Hh2 in H; inversion H; subst; clear H
    end;
    try done; try eexists; events_done.
Qed.

Lemma hop2_failure_is_the_status_witness :
  List.filter is_move
    (out_events (main_round "/isos" "/out" item_xp world_hop2_status)) = []
  ∧ List.filter is_outcome
      (out_events (main_round "/isos" "/out" item_xp world_hop2_status))
    = [EvPrint false
         (MsgFailedKernel
            (snd (os_path_split (os_path_join "I386" "NTOSKRNL.EX_")))
            "ERROR: CRC")]
  ∧ out_res (main_round "/isos" "/out" item_xp world_hop2_status) = Ok tt.
Proof.
  refine (proj1 (hop2_failure_is_the_status "/isos" "/out" iso_xp
                   (os_path_join "I386" "NTOSKRNL.EX_") "ntoskrnl.exe"
                   "/tmp/tmpa" world_hop2_status 0 2 "ERROR: CRC"
                   _ _ _ _) _).
  - by_evaluation.
  - by_evaluation.
  - by_evaluation.
  - by_evaluation.
  - discriminate.
Defined.

(** Every target of the catalog has the base name [ntoskrnl.exe], and
    every identifier the extension [.iso]. *)
Lemma catalog_names (iso container krnl : string) :
  (iso, (container, krnl)) ∈ NTOSKRNL_MAP →
  snd (os_path_split krnl) = "ntoskrnl.exe"
  ∧ iso = fst (os_path_splitext iso) +:+ ".iso".
Proof.
  unfold NTOSKRNL_MAP. intros H.
  repeat (apply elem_of_cons in H as [H|H];
          [injection H as -> -> ->; split; vm_compute; reflexivity|]).
  by apply elem_of_nil in H.
Qed.

(** C4, against the claim as stated.  Both hops succeed by the tests the
    script applies (nothing on standard error at hop 1, status zero at
    hop 2), yet 7z has left no [ntoskrnl.exe] in the workspace: the move
    raises, no artifact is written and the run ends there. *)
Lemma both_hops_succeed_without_artifact :
  item_xp ∈ NTOSKRNL_MAP
  ∧ out_res (hop1 (os_path_join "/isos" iso_xp)
                  (os_path_join "I386" "NTOSKRNL.EX_") "/tmp/tmpa"
                  world_hop2_nothing) = Ok (0, "")
  ∧ out_res (hop2 (os_path_join "/isos" iso_xp)
                  (os_path_join "I386" "NTOSKRNL.EX_") "ntoskrnl.exe"
                  "/tmp/tmpa" world_hop2_nothing) = Ok (0, "")
  ∧ List.filter is_move (out_events (main args0 world_hop2_nothing))
    = [EvMove "/tmp/tmpa/ntoskrnl.exe"
              (os_path_join "/out"
                 (fst (os_path_splitext iso_xp) +:+ "_ntoskrnl.exe"))
              false]
  ∧ (os_path_join "/out" (fst (os_path_splitext iso_xp) +:+ "_ntoskrnl.exe")
      ∉ w_files (out_world (main args0 world_hop2_nothing)))
  ∧ out_res (main args0 world_hop2_nothing)
    = Raise (OSError "No such file or directory").
Proof.
  split; [apply list_elem_of_here|].
  repeat split; by_evaluation.
Qed.

(** C4, amended.  For an entry of the catalog whose two hops succeed and
    whose move goes through (hop 2 has in fact left [ntoskrnl.exe] in the
    workspace, no directory has the artifact's name, the artifact's path
    is not inside the workspace and the move meets no error), the round
    makes exactly one move, which succeeds: from the target's base name
    inside the workspace to the output directory, under the identifier
    without its extension, an underscore and the target's base name; the
    round reports success and the artifact is a file when the round is
    over.  And a round writes an artifact only so: a successful move
    implies that hop 1 wrote nothing on standard error and that hop 2
    exited with status zero. *)
Theorem artifact_on_full_success
  (iso_dir output_dir iso container krnl d : string) (w : World) :
  (iso, (container, krnl)) ∈ NTOSKRNL_MAP →
  os_path_join iso_dir iso ∈ w_files w →
  out_res (acquired w) = Ok d →
  (∀ (returncode : Z) (stderr2 : string),
     out_res (hop1 (os_path_join iso_dir iso) container d w)
       = Ok (returncode, "") →
     out_res (hop2 (os_path_join iso_dir iso) container krnl d w)
       = Ok (0, stderr2) →
     os_path_join d "ntoskrnl.exe"
       ∈ w_files (out_world (hop2 (os_path_join iso_dir iso) container krnl d w)) →
     (os_path_join output_dir (fst (os_path_splitext iso) +:+ "_ntoskrnl.exe")
        ∉ w_dirs (out_world (hop2 (os_path_join iso_dir iso) container krnl d w))) →
     below d (os_path_join output_dir
                (fst (os_path_splitext iso) +:+ "_ntoskrnl.exe")) = false →
     hd None (w_move w) = None →
     List.filter is_move
       (out_events (main_round iso_dir output_dir (iso, (container, krnl)) w))
       = [EvMove (os_path_join d (snd (os_path_split krnl)))
                 (os_path_join output_dir
                    (fst (os_path_splitext iso) +:+ "_"
                       +:+ snd (os_path_split krnl)))
                 true]
     ∧ iso = fst (os_path_splitext iso) +:+ ".iso"
     ∧ List.filter is_outcome
         (out_events (main_round iso_dir output_dir (iso, (container, krnl)) w))
       = [EvPrint false (MsgSuccess iso)]
     ∧ out_res (main_round iso_dir output_dir (iso, (container, krnl)) w)
       = Ok tt
     ∧ os_path_join output_dir
         (fst (os_path_splitext iso) +:+ "_" +:+ snd (os_path_split krnl))
       ∈ w_files (out_world
                    (main_round iso_dir output_dir (iso, (container, krnl)) w)))
  ∧ (∀ src dst : string,
       In (EvMove src dst true)
          (out_events (main_round iso_dir output_dir (iso, (container, krnl)) w)) →
       ∃ (returncode : Z) (stderr2 : string),
         out_res (hop1 (os_path_join iso_dir iso) container d w)
           = Ok (returncode, "")
         ∧ out_res (hop2 (os_path_join iso_dir iso) container krnl d w)
           = Ok (0, stderr2)).
Proof.
  intros Hc Hf Hd.
  destruct (catalog_names iso container krnl Hc) as [Hk Hi].
  rewrite Hk. split.
  - intros rc s2 Hh1 Hh2 Hsrc Hdir Hbelow Hmv.
    destruct (hop2_world (os_path_join iso_dir iso) container krnl d w Hd)
      as [Edirs Emove].
    assert (os_path_join output_dir (fst (os_path_splitext iso) +:+ "_ntoskrnl.exe")
            ≠ d) as Hnd.
    { intros E. apply Hdir. rewrite Edirs, E.
      by apply elem_of_union_l, elem_of_singleton. }
    pose proof (shutil_move_ok (os_path_join d "ntoskrnl.exe")
                  (os_path_join output_dir
                     (fst (os_path_splitext iso) +:+ "_ntoskrnl.exe"))
                  (out_world (hop2 (os_path_join iso_dir iso) container krnl d w))
                  Hdir) as Hmove.
    rewrite Emove in Hmove. specialize (Hmove Hmv Hsrc).
    round_cases Hf Hd; unfold iso_path_of, kernel_src, kernel_dst in *;
      repeat match goal with
      | H : out_res (hop1 _ _ _ _) = _ |- _ =>
          rewrite Hh1 in H; inversion H; subst; clear H
      | H : out_res (hop2 _ _ _ _ _) = _ |- _ =>
          rewrite Hh2 in H; inversion H; subst; clear H
      | H : out_res (shutil_move _ _ _) = Raise _ |- _ =>
          rewrite Hmove in H; discriminate H
      end;
      try done.
    assert (os_path_join output_dir (fst (os_path_splitext iso) +:+ "_ntoskrnl.exe")
            ∈ w_files (out_world (released d (out_world
                (shutil_move (os_path_join d "ntoskrnl.exe")
                   (os_path_join output_dir
                      (fst (os_path_splitext iso) +:+ "_ntoskrnl.exe"))
                   (out_world (hop2 (os_path_join iso_dir iso) container krnl d w)))))))
      as Hthere.
    { apply (released_is_local d _ _ Hne Hnd Hbelow).
      rewrite Hmove. cbn. by apply elem_of_union_l, elem_of_singleton. }
    split; [|split; [|split; [|split]]]; try done; events_done.
  - intros src dst Hin.
    assert (∀ evr, List.filter is_move evr = [] → ¬ In (EvMove src dst true) evr)
      as Hno.
    { intros evr Hevr Hin'.
      assert (In (EvMove src dst true) (List.filter is_move evr)) as Hin''
        by (apply List.filter_In; done).
      by rewrite Hevr in Hin''. }
    revert Hin. round_cases Hf Hd; intros Hin; unfold iso_path_of in *;
      specialize (Hno _ Hq2);
      rewrite ?app_nil_r in Hin; cbn in Hin;
      repeat (destruct Hin as [Hin|Hin]; [try discriminate Hin|]);
      try (apply in_app_or in Hin as [Hin|Hin]; [done|]; cbn in Hin;
           repeat (destruct Hin as [Hin|Hin]; [try discriminate Hin|]));
      try done; eauto.
Qed.

Lemma artifact_on_full_success_witness :
  List.filter is_move
    (out_events (main_round "/isos" "/out" item_xp world_xp))
    = [EvMove "/tmp/tmpa/ntoskrnl.exe"
              (os_path_join "/out"
                 (fst (os_path_splitext iso_xp) +:+ "_" +:+ "ntoskrnl.exe"))
              true]
  ∧ iso_xp = fst (os_path_splitext iso_xp) +:+ ".iso"
  ∧ List.filter is_outcome
      (out_events (main_round "/isos" "/out" item_xp world_xp))
    = [EvPrint false (MsgSuccess iso_xp)]
  ∧ out_res (main_round "/isos" "/out" item_xp world_xp) = Ok tt
  ∧ os_path_join "/out"
      (fst (os_path_splitext iso_xp) +:+ "_" +:+ "ntoskrnl.exe")
    ∈ w_files (out_world (main_round "/isos" "/out" item_xp world_xp)).
Proof.
  refine (proj1 (artifact_on_full_success "/isos" "/out" iso_xp
                   (os_path_join "I386" "NTOSKRNL.EX_") "ntoskrnl.exe"
                   "/tmp/tmpa" world_xp _ _ _) 0 "" _ _ _ _ _ _).
  - apply list_elem_of_here.
  - by_evaluation.
  - by_evaluation.
  - by_evaluation.
  - by_evaluation.
  - by_evaluation.
  - by_evaluation.
  - by_evaluation.
  - by_evaluation.
Defined.

(** The body of the [with] statement never calls [rmtree]. *)
Lemma body_shape_no_rmtree (iso_dir output_dir iso container krnl d : string)
  (w : World) (b : Out flow) :
  body_shape iso_dir output_dir iso container krnl d w b →
  List.filter is_rmtree (out_events b) = [].
Proof. by destruct 1. Qed.

Lemma filter_nil_not_In (f : event → bool) (evs : list event) (e : event) :
  List.filter f evs = [] → f e = true → ¬ In e evs.
Proof.
  intros Hnil Hf Hin.
  assert (In e (List.filter f evs)) as H by (by apply List.filter_In).
  by rewrite Hnil in H.
Qed.

(** What leaving the [with] statement achieves. *)
Lemma released_outcome (d : string) (w : World) :
  d ≠ "" →
  (∃ (removed : bool) (rest : list event),
     out_events (released d w) = EvRmtree d removed :: rest)
  ∧ (In (EvRmtree d true) (out_events (released d w)) →
     (d ∉ w_dirs (out_world (released d w)))
     ∧ ∀ p, below d p = true →
            (p ∉ w_dirs (out_world (released d w)))
            ∧ (p ∉ w_files (out_world (released d w))))
  ∧ (hd None (w_rmtree w) = None → d ∈ w_dirs w →
     out_events (released d w) = [EvRmtree d true]).
Proof.
  intros Hd. split; [|split].
  - destruct (released_shape d w Hd); eauto.
  - destruct (released_shape d w Hd); cbn.
    + intros _. split; [apply prune_gone|].
      intros p Hp. split; by apply prune_below.
    + intros _. split; [apply prune_gone|].
      intros p Hp. split; by apply prune_below.
    + intros [K|[K|[K|[K|[]]]]]; discriminate.
  - intros H1 H2.
    pose proof (shutil_rmtree_clean d w H1 H2) as E.
    destruct (released_shape d w Hd) as [| e He | e e' He];
      [done | rewrite E in He; discriminate..].
Qed.

(** C1, against the claim as stated.  The XP archive is there, both hops
    succeed and the kernel is moved out, but every recursive deletion of
    the workspace fails: [cleanup] reports the error and returns, twice,
    and the workspace still exists when the run is over. *)
Lemma workspace_survives_failed_deletion :
  os_path_join "/isos" iso_xp ∈ w_files world_busy
  ∧ In (EvMkdtemp "/tmp/tmpa") (out_events (main args0 world_busy))
  ∧ List.filter is_rmtree (out_events (main args0 world_busy))
    = [EvRmtree "/tmp/tmpa" false; EvRmtree "/tmp/tmpa" false]
  ∧ out_res (main args0 world_busy) = Ok tt
  ∧ "/tmp/tmpa" ∈ w_dirs (out_world (main args0 world_busy)).
Proof.
  split; [by_evaluation|].
  split; [vm_compute; tauto|].
  repeat split; by_evaluation.
Qed.

(** C1, amended.  For an entry whose source archive exists and whose
    round acquired the workspace [d], the recursive deletion of [d] is
    requested however the round ends, normally or by an exception, and
    nothing requests it before the [with] statement is left.  Whenever a
    deletion goes through, neither [d] nor anything below it exists once
    the round is over; and it goes through at the first request when no
    fault is injected. *)
Theorem workspace_released_on_every_exit
  (iso_dir output_dir iso container krnl d : string) (w : World) :
  os_path_join iso_dir iso ∈ w_files w →
  out_res (acquired w) = Ok d →
  (∃ (before : list event) (removed : bool) (after : list event),
     out_events (main_round iso_dir output_dir (iso, (container, krnl)) w)
       = EvMkdtemp d :: before ++ EvRmtree d removed :: after
     ∧ List.filter is_rmtree before = [])
  ∧ (In (EvRmtree d true)
        (out_events (main_round iso_dir output_dir (iso, (container, krnl)) w)) →
     (d ∉ w_dirs (out_world
                    (main_round iso_dir output_dir (iso, (container, krnl)) w)))
     ∧ ∀ p, below d p = true →
            (p ∉ w_dirs (out_world
                (main_round iso_dir output_dir (iso, (container, krnl)) w)))
            ∧ (p ∉ w_files (out_world
                (main_round iso_dir output_dir (iso, (container, krnl)) w))))
  ∧ (hd None (w_rmtree w) = None →
     List.filter is_rmtree
       (out_events (main_round iso_dir output_dir (iso, (container, krnl)) w))
     = [EvRmtree d true]).
Proof.
  intros Hf Hd.
  rewrite !(main_round_present iso_dir output_dir iso container krnl d w Hf Hd).
  destruct (acquired_Ok w d Hd) as (Hne & _ & Ea).
  pose proof (extract_kernel_shape iso_dir output_dir iso container krnl d w Hne)
    as Hb.
  set (b := extract_kernel iso container krnl (iso_path_of iso_dir iso)
              output_dir d (out_world (acquired w))) in *.
  pose proof (body_shape_no_rmtree _ _ _ _ _ _ _ _ Hb) as Hnr.
  destruct (body_shape_frame _ _ _ _ _ _ _ _ Hne Hb) as [Hdirs Hrm].
  rewrite Ea in Hdirs, Hrm. cbn in Hdirs, Hrm.
  destruct (released_outcome d (out_world b) Hne) as ((rm & rest & Er) & Hgone & Hclean).
  assert (List.filter is_rmtree (fst (after_with iso (out_res b))) = []) as Haft
    by (by destruct (out_res b) as [[|]|]).
  cbn [out_events out_world].
  split; [|split].
  - exists (out_events b), rm, (rest ++ fst (after_with iso (out_res b)))%list.
    split; [|done]. rewrite Er. by rewrite <- app_comm_cons.
  - intros [Hin|Hin]; [discriminate|].
    apply in_app_or in Hin as [Hin|Hin].
    { by apply (filter_nil_not_In is_rmtree) in Hin. }
    apply in_app_or in Hin as [Hin|Hin]; [by apply Hgone|].
    by apply (filter_nil_not_In is_rmtree) in Hin.
  - intros Hhd.
    rewrite Hclean;
      [| by rewrite Hrm | rewrite Hdirs; by apply elem_of_union_l, elem_of_singleton].
    cbn [List.filter is_rmtree].
    rewrite !List.filter_app, Hnr, Haft. reflexivity.
Qed.

Lemma workspace_released_on_every_exit_witness :
  List.filter is_rmtree
    (out_events (main_round "/isos" "/out" item_xp world_hop2_status))
  = [EvRmtree "/tmp/tmpa" true].
Proof.
  refine (proj2 (proj2 (workspace_released_on_every_exit "/isos" "/out" iso_xp
                   (os_path_join "I386" "NTOSKRNL.EX_") "ntoskrnl.exe"
                   "/tmp/tmpa" world_hop2_status _ _)) _).
  - by_evaluation.
  - by_evaluation.
  - by_evaluation.
Defined.

(** ** The loop *)

Lemma attempted_app (evs evs' : list event) :
  attempted (evs ++ evs') = (attempted evs ++ attempted evs')%list.
Proof.
  induction evs as [|[[] []| | | |] evs IH]; cbn; by rewrite ?IH.
Qed.

Lemma main_loop_cons (item : string * (string * string))
  (rest : list (string * (string * string))) (iso_dir output_dir : string)
  (w : World) :
  main_loop (item :: rest) iso_dir output_dir w
  = match out_res (main_round iso_dir output_dir item w) with
    | Ok _ =>
        mkOut (out_events (main_round iso_dir output_dir item w)
                 ++ out_events (main_loop rest iso_dir output_dir
                      (out_world (main_round iso_dir output_dir item w))))
              (out_world (main_loop rest iso_dir output_dir
                 (out_world (main_round iso_dir output_dir item w))))
              (out_res (main_loop rest iso_dir output_dir
                 (out_world (main_round iso_dir output_dir item w))))
    | Raise e =>
        mkOut (out_events (main_round iso_dir output_dir item w))
              (out_world (main_round iso_dir output_dir item w))
              (Raise e)
    end.
Proof.
  unfold main_loop. cbn [for_each]. unfold bind at 1.
  destruct (main_round iso_dir output_dir item w) as [ev w1 [[]|e]]; cbn; [|done].
  by destruct (for_each rest _ w1).
Qed.

(** A round either ends normally, with one line telling what became of
    the entry, or lets an exception through, with no such line. *)
Lemma main_round_outcome (iso_dir output_dir : string)
  (item : string * (string * string)) (w : World) :
  (out_res (main_round iso_dir output_dir item w) = Ok tt
   ∧ attempted (out_events (main_round iso_dir output_dir item w)) = [fst item]
   ∧ ∃ line, List.filter is_outcome
               (out_events (main_round iso_dir output_dir item w)) = [line])
  ∨ (∃ e, out_res (main_round iso_dir output_dir item w) = Raise e
          ∧ List.filter is_outcome
              (out_events (main_round iso_dir output_dir item w)) = []).
Proof.
  destruct item as [iso [container krnl]].
  destruct (decide (os_path_join iso_dir iso ∈ w_files w)) as [Hf|Hf].
  2: { left. rewrite main_round_absent by done. cbn. eauto. }
  destruct (out_res (acquired w)) as [d|e] eqn:Hd.
  2: { right. rewrite (main_round_no_workspace _ _ _ _ _ _ e) by done.
       cbn. eauto. }
  round_cases Hf Hd;
    rewrite ?app_nil_r, ?List.filter_app, ?attempted_app, ?Hq3, ?Hq4;
    cbn; rewrite ?app_nil_r, ?List.filter_app, ?attempted_app, ?Hq3, ?Hq4;
    cbn; eauto 6.
Qed.





Lemma main_loop_absent_prefix (pre rest : list (string * (string * string)))
  (iso_dir output_dir : string) (w : World) :
  Forall (absent_in iso_dir w) pre →
  main_loop (pre ++ rest) iso_dir output_dir w
  = mkOut (map ev_not_found pre ++ out_events (main_loop rest iso_dir output_dir w))
          (out_world (main_loop rest iso_dir output_dir w))
          (out_res (main_loop rest iso_dir output_dir w)).
Proof.
  induction 1 as [|[iso [container krnl]] pre Ha _ IH]; cbn [app map].
  - by destruct (main_loop rest iso_dir output_dir w).
  - rewrite main_loop_cons, main_round_absent by exact Ha.
    cbn. by rewrite IH.
Qed.

(** C8, against the claim as stated.  7z is not installed.  The run
    nevertheless takes up the first entry (its archive is absent, it is
    reported and skipped) and the second (its archive is there): a
    workspace is created, the extraction is announced, and only the launch
    of the subprocess raises. *)
Lemma missing_7z_is_found_out_late :
  w_7z_on_path world_no_7z = false
  ∧ out_events (main args0 world_no_7z)
    = [EvPrint false (MsgDoesNotExist iso_xp);
       EvMkdtemp "/tmp/tmpa";
       EvPrint false (MsgExtracting iso_7);
       EvPopen ["7z"; "e"; os_path_join "/isos" iso_7;
                os_path_join "sources" "install.wim"] "/tmp/tmpa";
       EvRmtree "/tmp/tmpa" true]
  ∧ attempted (out_events (main args0 world_no_7z)) = [iso_xp; iso_7]
  ∧ out_res (main args0 world_no_7z)
    = Raise (OSError "No such file or directory: 7z").
Proof. repeat split; by_evaluation. Qed.

(** C8, amended.  That 7z is missing is not checked before the loop.
    With no source archive in the input directory the run of the loop
    reports every entry as not found and ends normally.  Otherwise the
    entries before the first whose archive is there are reported as not
    found; for that one the workspace is created and the extraction
    announced, launching 7z raises, the workspace is released and the
    exception, which nothing catches, ends the run there. *)
Theorem missing_7z_raises_at_first_launch
  (items : list (string * (string * string))) (iso_dir output_dir : string)
  (w : World) :
  w_7z_on_path w = false →
  (Forall (absent_in iso_dir w) items →
   main_loop items iso_dir output_dir w
   = mkOut (map ev_not_found items) w (Ok tt))
  ∧ (∀ pre iso container krnl post d,
       items = (pre ++ (iso, (container, krnl)) :: post)%list →
       Forall (absent_in iso_dir w) pre →
       os_path_join iso_dir iso ∈ w_files w →
       out_res (acquired w) = Ok d →
       main_loop items iso_dir output_dir w
       = mkOut (map ev_not_found pre
                  ++ EvMkdtemp d
                  :: EvPrint false (MsgExtracting iso)
                  :: EvPopen ["7z"; "e"; os_path_join iso_dir iso; container] d
                  :: out_events (released d (out_world (acquired w))))
               (out_world (released d (out_world (acquired w))))
               (Raise (OSError "No such file or directory: 7z"))).
Proof.
  intros H7z. split.
  - intros Ha.
    pose proof (main_loop_absent_prefix items [] iso_dir output_dir w Ha) as E.
    rewrite !app_nil_r in E. exact E.
  - intros pre iso container krnl post d -> Ha Hf Hd.
    rewrite (main_loop_absent_prefix pre _ iso_dir output_dir w Ha).
    rewrite main_loop_cons.
    destruct (acquired_Ok w d Hd) as (Hne & _ & Ea).
    assert (hop1 (os_path_join iso_dir iso) container d w
            = mkOut [EvPopen ["7z"; "e"; os_path_join iso_dir iso; container] d]
                    (out_world (acquired w))
                    (Raise (OSError "No such file or directory: 7z"))) as Eh.
    { unfold hop1. apply seven_zip_extract_absent; [done|].
      by rewrite Ea. }
    revert Eh. round_cases Hf Hd; unfold iso_path_of in *; intros Eh;
      match goal with
      | H : out_res (hop1 _ _ _ _) = _ |- _ =>
          rewrite Eh in H; cbn in H; inversion H; subst
      end.
    rewrite Eh. cbn. rewrite !app_nil_r. done.
Qed.

Lemma missing_7z_raises_at_first_launch_witness :
  main_loop NTOSKRNL_MAP "/isos" "/out" world_no_7z
  = mkOut (map ev_not_found [item_xp]
             ++ EvMkdtemp "/tmp/tmpa"
             :: EvPrint false (MsgExtracting iso_7)
             :: EvPopen ["7z"; "e"; os_path_join "/isos" iso_7;
                         os_path_join "sources" "install.wim"] "/tmp/tmpa"
             :: out_events (released "/tmp/tmpa" (out_world (acquired world_no_7z))))
          (out_world (released "/tmp/tmpa" (out_world (acquired world_no_7z))))
          (Raise (OSError "No such file or directory: 7z")).
Proof.
  refine (proj2 (missing_7z_raises_at_first_launch NTOSKRNL_MAP "/isos" "/out"
                   world_no_7z _)
                [item_xp] iso_7 (os_path_join "sources" "install.wim")
                (os_path_join (os_path_join "Windows" "System32") "ntoskrnl.exe")
                _ "/tmp/tmpa" _ _ _ _).
  - reflexivity.
  - reflexivity.
  - constructor; [|constructor]. unfold absent_in. by_evaluation.
  - by_evaluation.
  - by_evaluation.
Defined.

(** ** Cleanup *)

Lemma cleanup_cases (self : TemporaryDirectory) (warn : bool) (w : World) :
  cleanup self warn w = mkOut [] w (Ok self)
  ∨ (name self ≠ "" ∧ _closed self = false
     ∧ cleanup self warn w
       = mkOut (EvRmtree (name self) true
                  :: if warn
                     then [EvPrint false (MsgImplicitCleanup (name self))]
                     else [])
               (removed (name self) w)
               (Ok {| _closed := true; name := name self |}))
  ∨ (∃ e, name self ≠ "" ∧ _closed self = false
          ∧ out_res (shutil_rmtree (name self) w) = Raise e
          ∧ cleanup self warn w
            = mkOut [EvRmtree (name self) false;
                     EvPrint true (MsgCleanupError e (name self))]
                    (set_rmtree (tl (w_rmtree w)) w)
                    (Ok self)).
Proof.
  destruct (String.eqb_spec (name self) "") as [Hn|Hn].
  { left. apply cleanup_idle. auto. }
  destruct (_closed self) eqn:Hc.
  { left. apply cleanup_idle. auto. }
  destruct (shutil_rmtree_cases (name self) w) as [(e & E)|(_ & _ & E)].
  - right. right. exists e. repeat split; try done.
    + by rewrite E.
    + apply cleanup_fails; try done. by rewrite E.
  - right. left. repeat split; try done. by apply cleanup_removes.
Qed.

Lemma ignores_rmtree_ret {A} (a : A) : ignores_rmtree (ret a).
Proof. done. Qed.

Lemma ignores_rmtree_bind {A B} (m : M A) (k : A → M B) :
  ignores_rmtree m → (∀ a, ignores_rmtree (k a)) → ignores_rmtree (bind m k).
Proof.
  intros Hm Hk faults w. unfold bind. rewrite Hm.
  destruct (m w) as [ev w1 [a|e]]; cbn; [|done].
  rewrite Hk. by destruct (k a w1).
Qed.

Lemma ignores_rmtree_print (m : message) : ignores_rmtree (print m).
Proof. done. Qed.

Lemma ignores_rmtree_seven_zip_extract (source : string) (files : list string)
  (dest : option string) :
  ignores_rmtree (seven_zip_extract source files dest).
Proof.
  unfold seven_zip_extract. apply ignores_rmtree_bind.
  - destruct dest as [d|]; [destruct (String.eqb d "")|]; done.
  - intros d faults w. unfold subprocess_Popen_communicate. cbn.
    by destruct (w_7z_on_path w).
Qed.

Lemma ignores_rmtree_shutil_move (src dst : string) :
  ignores_rmtree (shutil_move src dst).
Proof.
  intros faults w. unfold shutil_move, real_dst. cbn.
  destruct (_ && _); [done|].
  destruct (hd None (w_move w)); [done|].
  by destruct (bool_decide (src ∈ w_files w)).
Qed.

Lemma ignores_rmtree_extract_kernel
  (iso container krnl iso_path output_dir temp_dir : string) :
  ignores_rmtree (extract_kernel iso container krnl iso_path output_dir temp_dir).
Proof.
  unfold extract_kernel.
  apply ignores_rmtree_bind; [apply ignores_rmtree_print|]. intros _.
  apply ignores_rmtree_bind; [apply ignores_rmtree_seven_zip_extract|].
  intros [rc1 s1]. destruct (negb (String.eqb s1 "")).
  { apply ignores_rmtree_bind; [apply ignores_rmtree_print|]. intros _.
    apply ignores_rmtree_ret. }
  apply ignores_rmtree_bind; [apply ignores_rmtree_seven_zip_extract|].
  intros [rc2 s2]. destruct (negb (Z.eqb rc2 0)).
  { apply ignores_rmtree_bind; [apply ignores_rmtree_print|]. intros _.
    apply ignores_rmtree_ret. }
  apply ignores_rmtree_bind; [apply ignores_rmtree_shutil_move|]. intros _.
  apply ignores_rmtree_ret.
Qed.

Lemma ignores_rmtree_acquired : ignores_rmtree acquired.
Proof.
  intros faults w. unfold acquired, tempfile_mkdtemp. cbn.
  destruct (w_mkdtemp w); [done|].
  by destruct (bool_decide _ || bool_decide _).
Qed.

(** The result of a round and its outcome line do not depend on what
    befalls the recursive deletions. *)
Lemma main_round_whatever_rmtree (iso_dir output_dir : string)
  (item : string * (string * string)) (w : World) (faults : list (option exn)) :
  out_res (main_round iso_dir output_dir item (set_rmtree faults w))
  = out_res (main_round iso_dir output_dir item w)
  ∧ List.filter is_outcome
      (out_events (main_round iso_dir output_dir item (set_rmtree faults w)))
    = List.filter is_outcome (out_events (main_round iso_dir output_dir item w)).
Proof.
  destruct item as [iso [container krnl]].
  destruct (decide (os_path_join iso_dir iso ∈ w_files w)) as [Hf|Hf].
  2: { by rewrite !main_round_absent by done. }
  assert (os_path_join iso_dir iso ∈ w_files (set_rmtree faults w)) as Hf'
    by done.
  pose proof (ignores_rmtree_acquired faults w) as Ea.
  destruct (out_res (acquired w)) as [d|e] eqn:Hd.
  2: { rewrite (main_round_no_workspace _ _ _ _ _ w e) by done.
       rewrite (main_round_no_workspace _ _ _ _ _ (set_rmtree faults w) e);
         [done | done | by rewrite Ea]. }
  assert (out_res (acquired (set_rmtree faults w)) = Ok d) as Hd'
    by (by rewrite Ea).
  destruct (acquired_Ok w d Hd) as (Hne & _ & _).
  rewrite (main_round_present _ _ _ _ _ d w Hf Hd).
  rewrite (main_round_present _ _ _ _ _ d (set_rmtree faults w) Hf' Hd').
  rewrite Ea. cbn [out_world out_events out_res].
  rewrite (ignores_rmtree_extract_kernel _ _ _ _ _ _ faults).
  cbn [out_world out_events out_res].
  split; [done|].
  cbn [List.filter is_outcome]. rewrite !List.filter_app.
  destruct (released_quiet d (set_rmtree faults (out_world
     (extract_kernel iso container krnl (iso_path_of iso_dir iso) output_dir d
        (out_world (acquired w))))) Hne) as (_ & _ & -> & _).
  destruct (released_quiet d (out_world
     (extract_kernel iso container krnl (iso_path_of iso_dir iso) output_dir d
        (out_world (acquired w)))) Hne) as (_ & _ & -> & _).
  done.
Qed.

(** C9, against the claim as stated.  A handle on which [cleanup] never
    ran reaches its finalizer while the deletion of its directory fails:
    the finalizer prints the error and no warning, and the directory
    stays. *)
Lemma finalizer_fails_without_warning :
  _closed handle_open = false
  ∧ out_events (__del__ handle_open
                  (set_rmtree [Some (OSError "Device or resource busy")]
                     world_tmpa))
    = [EvRmtree "/tmp/tmpa" false;
       EvPrint true
         (MsgCleanupError (OSError "Device or resource busy") "/tmp/tmpa")]
  ∧ ¬ In (EvPrint false (MsgImplicitCleanup "/tmp/tmpa"))
         (out_events (__del__ handle_open
                        (set_rmtree [Some (OSError "Device or resource busy")]
                           world_tmpa)))
  ∧ "/tmp/tmpa"
      ∈ w_dirs (out_world (__del__ handle_open
                             (set_rmtree [Some (OSError "Device or resource busy")]
                                world_tmpa))).
Proof.
  split; [reflexivity|]. split; [by_evaluation|]. split; [|by_evaluation].
  vm_compute. intros [H|[H|[]]]; discriminate.
Qed.

(** C9, amended.  When the recursive deletion of the workspace raises,
    [cleanup] prints the error on standard error and returns normally,
    leaving the handle as it was.  Whatever faults the deletions meet, the
    round has the same result and prints the same outcome line, so the
    entry's success or skip stands and the loop goes on as it would have.
    And the finalizer of a handle that has not been cleaned up retries the
    deletion: it prints the implicit-cleanup warning exactly when that
    deletion goes through, and the error, without a warning, when it
    fails. *)
Theorem cleanup_failure_is_reported_not_raised
  (self : TemporaryDirectory) (w : World) (e : exn) :
  name self ≠ "" →
  _closed self = false →
  out_res (shutil_rmtree (name self) w) = Raise e →
  (∀ warn : bool,
     cleanup self warn w
     = mkOut [EvRmtree (name self) false;
              EvPrint true (MsgCleanupError e (name self))]
             (set_rmtree (tl (w_rmtree w)) w)
             (Ok self))
  ∧ (∀ (iso_dir output_dir : string) (item : string * (string * string))
       (w' : World) (faults : list (option exn)),
       out_res (main_round iso_dir output_dir item (set_rmtree faults w'))
       = out_res (main_round iso_dir output_dir item w')
       ∧ List.filter is_outcome
           (out_events (main_round iso_dir output_dir item (set_rmtree faults w')))
         = List.filter is_outcome
             (out_events (main_round iso_dir output_dir item w')))
  ∧ (∀ w' : World,
       (out_res (shutil_rmtree (name self) w') = Ok tt →
        out_events (__del__ self w')
        = [EvRmtree (name self) true;
           EvPrint false (MsgImplicitCleanup (name self))])
       ∧ (∀ e' : exn,
            out_res (shutil_rmtree (name self) w') = Raise e' →
            out_events (__del__ self w')
            = [EvRmtree (name self) false;
               EvPrint true (MsgCleanupError e' (name self))])).
Proof.
  intros Hn Hc He. split; [|split].
  - intros warn. by apply cleanup_fails.
  - intros. apply main_round_whatever_rmtree.
  - intros w'. unfold __del__.
    destruct (shutil_rmtree_cases (name self) w') as [(x & E)|(_ & _ & E)].
    + split; [by rewrite E|].
      intros e' He'. by rewrite (cleanup_fails self true w' e').
    + split; [intros _; by rewrite cleanup_removes|].
      intros e' He'. by rewrite E in He'.
Qed.

Lemma cleanup_failure_is_reported_not_raised_witness :
  cleanup handle_open false world_busy
  = mkOut [EvRmtree "/tmp/tmpa" false;
           EvPrint true
             (MsgCleanupError (OSError "Device or resource busy")
                              "/tmp/tmpa")]
          (set_rmtree (tl (w_rmtree world_busy)) world_busy)
          (Ok handle_open).
Proof.
  refine (proj1 (cleanup_failure_is_reported_not_raised handle_open world_busy
                   (OSError "Device or resource busy") _ _ _) false).
  - discriminate.
  - reflexivity.
  - by_evaluation.
Defined.

(** C10. Once a call of [cleanup] has removed the directory, the handle
    is closed and every later call on it, the finalizer's included,
    deletes nothing, prints nothing and leaves the world alone.  The
    implicit-cleanup warning is printed only by a call with [warn] set
    that itself removed the directory: [__exit__] never prints it, and
    [__del__] prints it exactly when its own deletion went through. *)
Theorem cleanup_is_idempotent
  (self : TemporaryDirectory) (warn : bool) (w : World) :
  In (EvRmtree (name self) true) (out_events (cleanup self warn w)) →
  (∃ self' : TemporaryDirectory,
     out_res (cleanup self warn w) = Ok self'
     ∧ _closed self' = true
     ∧ name self' = name self
     ∧ ∀ (warn' : bool) (w' : World),
         cleanup self' warn' w' = mkOut [] w' (Ok self'))
  ∧ (∀ (self0 : TemporaryDirectory) (w0 : World) (n : string),
       ¬ In (EvPrint false (MsgImplicitCleanup n)) (out_events (__exit__ self0 w0)))
  ∧ (∀ (self0 : TemporaryDirectory) (w0 : World),
       In (EvPrint false (MsgImplicitCleanup (name self0)))
          (out_events (__del__ self0 w0))
       ↔ In (EvRmtree (name self0) true) (out_events (__del__ self0 w0))).
Proof.
  intros Hin. split; [|split].
  - destruct (cleanup_cases self warn w)
      as [E|[(_ & _ & E)|(e' & _ & _ & _ & E)]]; rewrite E in Hin |- *.
    + destruct Hin.
    + eexists. repeat split. intros warn' w'. by apply cleanup_idle; right.
    + destruct Hin as [H|[H|[]]]; discriminate.
  - intros self0 w0 n. unfold __exit__.
    destruct (cleanup_cases self0 false w0)
      as [E|[(_ & _ & E)|(e' & _ & _ & _ & E)]]; rewrite E; cbn.
    + tauto.
    + intros [H|[]]; discriminate.
    + intros [H|[H|[]]]; discriminate.
  - intros self0 w0. unfold __del__.
    destruct (cleanup_cases self0 true w0)
      as [E|[(_ & _ & E)|(e' & _ & _ & _ & E)]]; rewrite E; cbn.
    + tauto.
    + tauto.
    + split; intros [H|[H|[]]]; discriminate.
Qed.

Lemma cleanup_is_idempotent_witness :
  ∃ self' : TemporaryDirectory,
    out_res (cleanup handle_open false world_tmpa) = Ok self'
    ∧ _closed self' = true
    ∧ name self' = name handle_open
    ∧ ∀ (warn' : bool) (w' : World),
        cleanup self' warn' w' = mkOut [] w' (Ok self').
Proof.
  refine (proj1 (cleanup_is_idempotent handle_open false world_tmpa _)).
  vm_compute. left. reflexivity.
Defined.

(** ** Further properties of the script *)

(** *** [seven_zip_extract] *)

(** X1. [seven_zip_extract] launches exactly one subprocess, whose
    command line is [7z e source] followed by the requested members in
    their order; it runs in [dest], and in the current directory when
    [dest] is [None] or empty. *)
Theorem seven_zip_extract_command
  (source : string) (files : list string) (dest : option string) (w : World) :
  out_events (seven_zip_extract source files dest w)
  = [EvPopen ("7z" :: "e" :: source :: files)
             (match dest with
              | Some d => if String.eqb d "" then w_cwd w else d
              | None => w_cwd w
              end)].
Proof.
  unfold seven_zip_extract, bind, subprocess_Popen_communicate, os_getcwd, ret.
  destruct dest as [d|]; [destruct (String.eqb d "")|];
    by destruct (w_7z_on_path w).
Qed.

(** *** The [with] statement over [TemporaryDirectory] *)

(** X3. Once the workspace [d] is acquired, the [with] statement runs its
    body once, on [d], right after the directory is created, and ends as
    the body ends: with the body's value, or with the very exception the
    body raised; [__exit__] neither swallows nor replaces it. *)
Theorem with_statement_is_transparent {A : Type}
  (body : string → M A) (w : World) (d : string) :
  out_res (acquired w) = Ok d →
  out_res (with_TemporaryDirectory body w)
    = out_res (body d (out_world (acquired w)))
  ∧ ∃ release : list event,
      out_events (with_TemporaryDirectory body w)
      = EvMkdtemp d :: out_events (body d (out_world (acquired w))) ++ release
      ∧ List.filter is_popen release = []
      ∧ List.filter is_move release = []
      ∧ List.filter is_mkdtemp release = [].
Proof.
  intros Hd. rewrite (with_TemporaryDirectory_eq body w d Hd). cbn.
  split; [done|]. eexists. split; [done|].
  destruct (acquired_Ok w d Hd) as (Hne & _ & _).
  by destruct (released_shape d (out_world (body d (out_world (acquired w)))) Hne).
Qed.

Lemma with_statement_is_transparent_witness :
  out_res (with_TemporaryDirectory
             (fun _ => raise (Exception "boom") : M unit) world_xp)
  = Raise (Exception "boom").
Proof.
  refine (proj1 (with_statement_is_transparent
                   (fun _ => raise (Exception "boom") : M unit)
                   world_xp "/tmp/tmpa" _)).
  by_evaluation.
Defined.

(** X4. When the temporary directory cannot be created, the [with]
    statement raises the error of [mkdtemp] without running its body:
    nothing is printed, launched, moved or deleted, and no directory or
    file appears or disappears. *)
Theorem with_statement_without_workspace {A : Type}
  (body : string → M A) (w : World) (e : exn) :
  out_res (acquired w) = Raise e →
  out_events (with_TemporaryDirectory body w) = []
  ∧ out_res (with_TemporaryDirectory body w) = Raise e
  ∧ w_dirs (out_world (with_TemporaryDirectory body w)) = w_dirs w
  ∧ w_files (out_world (with_TemporaryDirectory body w)) = w_files w.
Proof.
  intros He. rewrite (with_TemporaryDirectory_raise body w e He). cbn.
  repeat split; try done;
    unfold acquired, tempfile_mkdtemp in *;
    destruct (w_mkdtemp w); [done| |done|];
    by destruct (bool_decide _ || bool_decide _).
Qed.

Lemma with_statement_without_workspace_witness :
  out_events (with_TemporaryDirectory
                (fun _ => print (MsgSuccess "never") : M unit)
                (set_mkdtemp [] world_xp)) = []
  ∧ out_res (with_TemporaryDirectory
               (fun _ => print (MsgSuccess "never") : M unit)
               (set_mkdtemp [] world_xp))
    = Raise (OSError "No usable temporary directory name found")
  ∧ w_dirs (out_world (with_TemporaryDirectory
                         (fun _ => print (MsgSuccess "never") : M unit)
                         (set_mkdtemp [] world_xp)))
    = w_dirs (set_mkdtemp [] world_xp)
  ∧ w_files (out_world (with_TemporaryDirectory
                          (fun _ => print (MsgSuccess "never") : M unit)
                          (set_mkdtemp [] world_xp)))
    = w_files (set_mkdtemp [] world_xp).
Proof.
  apply (with_statement_without_workspace
           (fun _ => print (MsgSuccess "never") : M unit)
           (set_mkdtemp [] world_xp)
           (OSError "No usable temporary directory name found")).
  by_evaluation.
Defined.

(** X5. A [TemporaryDirectory] that [__init__] has built is open and
    names a directory that did not exist before, as a directory or as a
    file, and exists now; no other directory and no file is touched. *)
Theorem init_creates_a_fresh_directory
  (suffix prefix : string) (dir_ : option string) (w : World)
  (self : TemporaryDirectory) :
  prefix ≠ "" →
  out_res (__init__ suffix prefix dir_ w) = Ok self →
  _closed self = false
  ∧ name self ≠ ""
  ∧ (name self ∉ w_dirs w)
  ∧ (name self ∉ w_files w)
  ∧ w_dirs (out_world (__init__ suffix prefix dir_ w)) = {[name self]} ∪ w_dirs w
  ∧ w_files (out_world (__init__ suffix prefix dir_ w)) = w_files w
  ∧ out_events (__init__ suffix prefix dir_ w) = [EvMkdtemp (name self)].
Proof.
  intros Hp. unfold __init__, bind, tempfile_mkdtemp, ret.
  destruct (w_mkdtemp w) as [|r rest]; [discriminate|].
  destruct (bool_decide _ || bool_decide _) eqn:E; [discriminate|].
  cbn. intros [= <-]. cbn.
  apply orb_false_iff in E as [E1 E2].
  apply bool_decide_eq_false in E1, E2.
  repeat split; try done.
  apply os_path_join_nonempty. by destruct prefix.
Qed.

Lemma init_creates_a_fresh_directory_witness :
  _closed handle_open = false
  ∧ name handle_open ≠ ""
  ∧ (name handle_open ∉ w_dirs world_xp)
  ∧ (name handle_open ∉ w_files world_xp)
  ∧ w_dirs (out_world (__init__ "" "tmp" None world_xp))
    = {[name handle_open]} ∪ w_dirs world_xp
  ∧ w_files (out_world (__init__ "" "tmp" None world_xp)) = w_files world_xp
  ∧ out_events (__init__ "" "tmp" None world_xp) = [EvMkdtemp (name handle_open)].
Proof.
  apply (init_creates_a_fresh_directory "" "tmp" None world_xp handle_open).
  - discriminate.
  - by_evaluation.
Defined.

(** *** [cleanup] *)

(** X6. [cleanup] touches nothing but the tree at [self.name]: a path
    that is neither that directory nor below it is a directory after the
    call exactly when it was one before, and likewise for files. *)
Theorem cleanup_is_local
  (self : TemporaryDirectory) (warn : bool) (w : World) (p : string) :
  p ≠ name self →
  below (name self) p = false →
  (p ∈ w_dirs (out_world (cleanup self warn w)) ↔ p ∈ w_dirs w)
  ∧ (p ∈ w_files (out_world (cleanup self warn w)) ↔ p ∈ w_files w).
Proof.
  intros Hp Hb.
  destruct (cleanup_cases self warn w)
    as [E|[(_ & _ & E)|(e' & _ & _ & _ & E)]]; rewrite E; cbn; try done.
  split; by apply prune_keeps.
Qed.

Lemma cleanup_is_local_witness :
  ("/out" ∈ w_dirs (out_world (cleanup handle_open false world_tmpa))
   ↔ "/out" ∈ w_dirs world_tmpa)
  ∧ ("/isos/" +:+ iso_xp
       ∈ w_files (out_world (cleanup handle_open false world_tmpa))
     ↔ "/isos/" +:+ iso_xp ∈ w_files world_tmpa).
Proof.
  pose proof (cleanup_is_local handle_open false world_tmpa "/out") as H1.
  pose proof (cleanup_is_local handle_open false world_tmpa ("/isos/" +:+ iso_xp))
    as H2.
  split.
  - apply H1; [discriminate | reflexivity].
  - apply H2; [discriminate | reflexivity].
Defined.

(** X7. [cleanup] never raises, whatever the handle, the flag and the
    fate of the deletion; it keeps the name of the handle, and the handle
    is closed afterwards exactly when it was closed before or this very
    call removed the directory. *)
Theorem cleanup_always_returns
  (self : TemporaryDirectory) (warn : bool) (w : World) :
  ∃ self' : TemporaryDirectory,
    out_res (cleanup self warn w) = Ok self'
    ∧ name self' = name self
    ∧ (_closed self' = true
       ↔ _closed self = true
         ∨ In (EvRmtree (name self) true) (out_events (cleanup self warn w))).
Proof.
  destruct (cleanup_cases self warn w)
    as [E|[(_ & Hc & E)|(e' & _ & Hc & _ & E)]]; rewrite E; cbn;
    eexists; (split; [reflexivity|]); (split; [reflexivity|]); cbn.
  - tauto.
  - tauto.
  - rewrite Hc. split; [done|].
    intros [?|[?|[?|[]]]]; discriminate.
Qed.

(** *** One round of the loop *)

Lemma seven_zip_extract_files_grow (source : string) (files : list string)
  (d : string) (w : World) (p : string) :
  p ∈ w_files w → p ∈ w_files (out_world (seven_zip_extract source files (Some d) w)).
Proof.
  intros Hp.
  unfold seven_zip_extract, bind, subprocess_Popen_communicate, os_getcwd, ret.
  destruct (String.eqb d ""); cbn; destruct (w_7z_on_path w); cbn;
    try done; by apply elem_of_union_r.
Qed.

Lemma shutil_move_keeps_files (src dst : string) (w : World) (p : string) :
  p ∈ w_files w → p ≠ src → p ∈ w_files (out_world (shutil_move src dst w)).
Proof.
  intros Hp Hne. unfold shutil_move.
  destruct (_ && _); [done|].
  destruct (hd None (w_move w)); [done|].
  destruct (bool_decide (src ∈ w_files w)); [|done]. cbn.
  apply elem_of_union_r, elem_of_difference. split; [done|].
  by rewrite elem_of_singleton.
Qed.

(** The body of the [with] statement keeps every file but the one it
    moves. *)
Lemma body_shape_keeps_files (iso_dir output_dir iso container krnl d : string)
  (w : World) (b : Out flow) (p : string) :
  body_shape iso_dir output_dir iso container krnl d w b →
  p ∈ w_files (out_world (acquired w)) →
  p ≠ kernel_src d →
  p ∈ w_files (out_world b).
Proof.
  intros Hb Hp Hne.
  assert (p ∈ w_files (out_world (hop1 (iso_path_of iso_dir iso) container d w)))
    as H1 by (by apply seven_zip_extract_files_grow).
  assert (p ∈ w_files (out_world (hop2 (iso_path_of iso_dir iso) container krnl d w)))
    as H2 by (by apply seven_zip_extract_files_grow).
  destruct Hb; cbn; try done; by apply shutil_move_keeps_files.
Qed.

(** X8. A round creates and removes no directory but its workspace: a
    path that is neither the workspace nor below it is a directory after
    the round exactly when it was one before, however the round ends. *)
Theorem round_keeps_other_directories
  (iso_dir output_dir : string) (item : string * (string * string))
  (w : World) (p : string) :
  (∀ d, out_res (acquired w) = Ok d → p ≠ d ∧ below d p = false) →
  (p ∈ w_dirs (out_world (main_round iso_dir output_dir item w)) ↔ p ∈ w_dirs w).
Proof.
  intros Hp. destruct item as [iso [container krnl]].
  destruct (decide (os_path_join iso_dir iso ∈ w_files w)) as [Hf|Hf].
  2: { by rewrite main_round_absent by done. }
  destruct (out_res (acquired w)) as [d|e] eqn:Hd.
  2: { rewrite (main_round_no_workspace _ _ _ _ _ _ e) by done. cbn.
       by destruct (acquired_Raise w e Hd) as [-> _]. }
  destruct (Hp d eq_refl) as [Hpd Hb].
  destruct (acquired_Ok w d Hd) as (Hne & _ & _).
  destruct (acquired_fresh w d Hd) as (_ & _ & Ed).
  rewrite (main_round_present _ _ _ _ _ d w Hf Hd). cbn [out_world].
  pose proof (extract_kernel_shape iso_dir output_dir iso container krnl d w Hne)
    as Hs.
  destruct (body_shape_frame _ _ _ _ _ _ _ _ Hne Hs) as [Hdirs _].
  destruct (released_is_local d (out_world
              (extract_kernel iso container krnl (iso_path_of iso_dir iso)
                 output_dir d (out_world (acquired w)))) p Hne Hpd Hb) as [-> _].
  rewrite Hdirs, Ed, elem_of_union, elem_of_singleton. tauto.
Qed.

Lemma round_keeps_other_directories_witness :
  "/out" ∈ w_dirs (out_world (main_round "/isos" "/out" item_xp world_busy))
  ↔ "/out" ∈ w_dirs world_busy.
Proof.
  apply (round_keeps_other_directories "/isos" "/out" item_xp world_busy "/out").
  intros d Hd. vm_compute in Hd. injection Hd as <-.
  split; [discriminate | reflexivity].
Defined.

(** X9. A round leaves its source archive in place, however it ends,
    provided the archive is not inside the workspace the round is given. *)
Theorem round_keeps_the_source_archive
  (iso_dir output_dir iso container krnl : string) (w : World) :
  os_path_join iso_dir iso ∈ w_files w →
  (∀ d, out_res (acquired w) = Ok d →
        below d (os_path_join iso_dir iso) = false
        ∧ os_path_join iso_dir iso ≠ os_path_join d "ntoskrnl.exe") →
  os_path_join iso_dir iso
    ∈ w_files (out_world (main_round iso_dir output_dir (iso, (container, krnl)) w)).
Proof.
  intros Hf Hp.
  destruct (out_res (acquired w)) as [d|e] eqn:Hd.
  2: { rewrite (main_round_no_workspace _ _ _ _ _ _ e) by done. cbn.
       by destruct (acquired_Raise w e Hd) as [_ ->]. }
  destruct (Hp d eq_refl) as [Hb Hsrc].
  destruct (acquired_Ok w d Hd) as (Hne & _ & _).
  destruct (acquired_fresh w d Hd) as (Hfresh & Ef & _).
  rewrite (main_round_present _ _ _ _ _ d w Hf Hd). cbn [out_world].
  pose proof (extract_kernel_shape iso_dir output_dir iso container krnl d w Hne)
    as Hs.
  assert (os_path_join iso_dir iso ≠ d) as Hpd
    by (intros E; rewrite E in Hf; done).
  apply (released_is_local d _ _ Hne Hpd Hb).
  apply (body_shape_keeps_files _ _ _ _ _ _ _ _ _ Hs); [by rewrite Ef | done].
Qed.

Lemma round_keeps_the_source_archive_witness :
  os_path_join "/isos" iso_xp
    ∈ w_files (out_world (main_round "/isos" "/out" item_xp world_xp)).
Proof.
  apply (round_keeps_the_source_archive "/isos" "/out" iso_xp
           (os_path_join "I386" "NTOSKRNL.EX_") "ntoskrnl.exe" world_xp).
  - by_evaluation.
  - intros d Hd. vm_compute in Hd. injection Hd as <-.
    split; [reflexivity | discriminate].
Defined.

(** X10. Every launch of 7z in a round runs inside the round's workspace,
    never in the caller's directory, and is one of two: hop 1 on the
    source archive for the container, hop 2 on the flattened container
    inside the workspace for the kernel. *)
Theorem launches_run_inside_the_workspace
  (iso_dir output_dir iso container krnl d : string) (w : World)
  (args : list string) (cwd : string) :
  os_path_join iso_dir iso ∈ w_files w →
  out_res (acquired w) = Ok d →
  In (EvPopen args cwd)
     (out_events (main_round iso_dir output_dir (iso, (container, krnl)) w)) →
  cwd = d
  ∧ (args = ["7z"; "e"; os_path_join iso_dir iso; container]
     ∨ args = ["7z"; "e"; os_path_join d (snd (os_path_split container)); krnl]).
Proof.
  intros Hf Hd Hin.
  assert (In (EvPopen args cwd)
            (List.filter is_popen
               (out_events (main_round iso_dir output_dir (iso, (container, krnl)) w))))
    as Hin' by (by apply List.filter_In).
  clear Hin. revert Hin'.
  round_cases Hf Hd; unfold iso_path_of in *.
  all: repeat (rewrite ?app_nil_r, ?List.filter_app; cbn).
  all: rewrite ?Hq1; cbn.
  all: intros Hin; repeat (destruct Hin as [Hin|Hin]; [injection Hin as <- <-; auto|]);
    try done.
Qed.

Lemma launches_run_inside_the_workspace_witness :
  "/tmp/tmpa" = "/tmp/tmpa"
  ∧ (["7z"; "e"; "/tmp/tmpa/NTOSKRNL.EX_"; "ntoskrnl.exe"]
       = ["7z"; "e"; os_path_join "/isos" iso_xp; os_path_join "I386" "NTOSKRNL.EX_"]
     ∨ ["7z"; "e"; "/tmp/tmpa/NTOSKRNL.EX_"; "ntoskrnl.exe"]
       = ["7z"; "e";
          os_path_join "/tmp/tmpa"
            (snd (os_path_split (os_path_join "I386" "NTOSKRNL.EX_")));
          "ntoskrnl.exe"]).
Proof.
  apply (launches_run_inside_the_workspace "/isos" "/out" iso_xp
           (os_path_join "I386" "NTOSKRNL.EX_") "ntoskrnl.exe" "/tmp/tmpa"
           world_xp).
  - by_evaluation.
  - by_evaluation.
  - vm_compute. tauto.
Defined.

(** *** The whole run *)

Lemma released_no_mkdtemp (d : string) (w : World) :
  d ≠ "" → List.filter is_mkdtemp (out_events (released d w)) = [].
Proof. intros Hd. by destruct (released_shape d w Hd). Qed.


(** How many launches, workspaces and moves a round makes. *)
Lemma main_round_counts (iso_dir output_dir : string)
  (item : string * (string * string)) (w : World) :
  (length (List.filter is_popen
             (out_events (main_round iso_dir output_dir item w))) ≤ 2)%nat
  ∧ (length (List.filter is_mkdtemp
               (out_events (main_round iso_dir output_dir item w))) ≤ 1)%nat
  ∧ (length (List.filter is_move
               (out_events (main_round iso_dir output_dir item w))) ≤ 1)%nat.
Proof.
  destruct item as [iso [container krnl]].
  destruct (decide (os_path_join iso_dir iso ∈ w_files w)) as [Hf|Hf].
  2: { rewrite main_round_absent by done. cbn. lia. }
  destruct (out_res (acquired w)) as [d|e] eqn:Hd.
  2: { rewrite (main_round_no_workspace _ _ _ _ _ _ e) by done. cbn. lia. }
  round_cases Hf Hd.
  all: repeat (rewrite ?app_nil_r, ?List.filter_app; cbn).
  all: rewrite ?Hq1, ?Hq2, ?(released_no_mkdtemp d _ Hne); cbn; lia.
Qed.

Lemma main_loop_events_cons (item : string * (string * string))
  (rest : list (string * (string * string))) (iso_dir output_dir : string)
  (w : World) :
  out_events (main_loop (item :: rest) iso_dir output_dir w)
  = out_events (main_round iso_dir output_dir item w)
  ∨ out_events (main_loop (item :: rest) iso_dir output_dir w)
    = (out_events (main_round iso_dir output_dir item w)
       ++ out_events (main_loop rest iso_dir output_dir
            (out_world (main_round iso_dir output_dir item w))))%list.
Proof.
  rewrite main_loop_cons.
  destruct (out_res (main_round iso_dir output_dir item w)); auto.
Qed.




(** X12. A run of the loop launches 7z at most twice per entry, and
    creates at most one workspace and makes at most one move per entry;
    [main] therefore launches 7z at most eight times. *)
Theorem run_is_bounded
  (items : list (string * (string * string))) (iso_dir output_dir : string)
  (w : World) (args : Args.t) :
  (length (List.filter is_popen
             (out_events (main_loop items iso_dir output_dir w)))
   ≤ 2 * length items)%nat
  ∧ (length (List.filter is_mkdtemp
               (out_events (main_loop items iso_dir output_dir w)))
     ≤ length items)%nat
  ∧ (length (List.filter is_move
               (out_events (main_loop items iso_dir output_dir w)))
     ≤ length items)%nat
  ∧ (length (List.filter is_popen (out_events (main args w))) ≤ 8)%nat.
Proof.
  assert (∀ iso_dir output_dir items w,
    (length (List.filter is_popen
               (out_events (main_loop items iso_dir output_dir w)))
     ≤ 2 * length items)%nat
    ∧ (length (List.filter is_mkdtemp
                 (out_events (main_loop items iso_dir output_dir w)))
       ≤ length items)%nat
    ∧ (length (List.filter is_move
                 (out_events (main_loop items iso_dir output_dir w)))
       ≤ length items)%nat) as Hloop.
  { clear. intros iso_dir output_dir items.
    induction items as [|item rest IH]; intros w.
    { cbn. lia. }
    pose proof (main_round_counts iso_dir output_dir item w) as (H1 & H2 & H3).
    destruct (main_loop_events_cons item rest iso_dir output_dir w) as [-> | ->].
    - cbn [length]. lia.
    - destruct (IH (out_world (main_round iso_dir output_dir item w)))
        as (I1 & I2 & I3).
      rewrite !List.filter_app, !length_app. cbn [length]. lia. }
  split; [apply Hloop|]. split; [apply Hloop|]. split; [apply Hloop|].
  destruct (decide (Args.iso_dir args ∈ w_dirs w ∧ Args.output_dir args ∈ w_dirs w))
    as [[H1 H2]|H].
  - rewrite main_valid by done.
    exact (proj1 (Hloop _ _ NTOSKRNL_MAP w)).
  - rewrite main_invalid by done. cbn. lia.
Qed.

(** What a round adds to the entries taken up. *)
Lemma main_round_attempted (iso_dir output_dir : string)
  (item : string * (string * string)) (w : World) :
  attempted (out_events (main_round iso_dir output_dir item w)) = [fst item]
  ∨ (attempted (out_events (main_round iso_dir output_dir item w)) = []
     ∧ ∃ e, out_res (main_round iso_dir output_dir item w) = Raise e).
Proof.
  destruct item as [iso [container krnl]].
  destruct (decide (os_path_join iso_dir iso ∈ w_files w)) as [Hf|Hf].
  2: { left. by rewrite main_round_absent by done. }
  destruct (out_res (acquired w)) as [d|e] eqn:Hd.
  2: { right. rewrite (main_round_no_workspace _ _ _ _ _ _ e) by done.
       cbn. eauto. }
  left. round_cases Hf Hd.
  all: repeat (rewrite ?app_nil_r, ?attempted_app; cbn).
  all: by rewrite ?Hq4.
Qed.

(** X13. A run of the loop prints at most one outcome line per entry
    (not found, hop 1 failed, hop 2 failed, or success), and it ends
    normally exactly when it has printed one for every entry. *)
Theorem one_outcome_line_per_entry
  (items : list (string * (string * string))) (iso_dir output_dir : string)
  (w : World) :
  (length (List.filter is_outcome
             (out_events (main_loop items iso_dir output_dir w)))
   ≤ length items)%nat
  ∧ (out_res (main_loop items iso_dir output_dir w) = Ok tt
     ↔ length (List.filter is_outcome
                 (out_events (main_loop items iso_dir output_dir w)))
       = length items).
Proof.
  assert ((out_res (main_loop items iso_dir output_dir w) = Ok tt
           ∧ length (List.filter is_outcome
                       (out_events (main_loop items iso_dir output_dir w)))
             = length items)
          ∨ ((∃ e, out_res (main_loop items iso_dir output_dir w) = Raise e)
             ∧ (length (List.filter is_outcome
                          (out_events (main_loop items iso_dir output_dir w)))
                < length items)%nat)) as H.
  { revert w. induction items as [|item rest IH]; intros w; [by left|].
    rewrite main_loop_cons.
    destruct (main_round_outcome iso_dir output_dir item w)
      as [(Hr & _ & line & Hl)|(e & Hr & Hno)]; rewrite Hr; cbn [out_events out_res].
    - rewrite List.filter_app, length_app, Hl. cbn [length].
      destruct (IH (out_world (main_round iso_dir output_dir item w)))
        as [[-> ->]|[[e ->] Hlt]].
      + left. split; [done | lia].
      + right. split; [eauto | lia].
    - right. rewrite Hno. cbn. split; [eauto | lia]. }
  destruct H as [[Hr Hl]|[[e Hr] Hl]]; rewrite Hr.
  - split; [lia | done].
  - split; [lia|]. split; [done | lia].
Qed.

(** X14. The entries a run of the loop takes up are always an initial
    stretch of the catalog, in catalog order: none is skipped over and
    none is taken up twice, also in a run that an exception cuts short. *)
Theorem entries_are_taken_up_in_order
  (items : list (string * (string * string))) (iso_dir output_dir : string)
  (w : World) :
  attempted (out_events (main_loop items iso_dir output_dir w))
    `prefix_of` map fst items.
Proof.
  revert w. induction items as [|item rest IH]; intros w.
  { by exists []. }
  rewrite main_loop_cons.
  destruct (main_round_attempted iso_dir output_dir item w)
    as [Ha|[Ha [e He]]].
  - destruct (out_res (main_round iso_dir output_dir item w)) as [[]|e];
      cbn [out_events map].
    + rewrite attempted_app, Ha. cbn.
      by apply prefix_cons.
    + rewrite Ha. apply prefix_cons, prefix_nil.
  - rewrite He. cbn [out_events]. rewrite Ha. apply prefix_nil.
Qed.

(** *** The name of the artifact *)

Lemma append_inj_l (a x y : string) : a +:+ x = a +:+ y → x = y.
Proof. induction a as [|c a IH]; cbn; [done|]. intros [= H]. auto. Qed.

Lemma length_append (x s : string) :
  String.length (x +:+ s) = (String.length x + String.length s)%nat.
Proof.
  induction x as [|c x IH]; [done|].
  change (S (String.length (x +:+ s))
          = S (String.length x + String.length s)). by rewrite IH.
Qed.

Lemma append_inj_r (x y s : string) : x +:+ s = y +:+ s → x = y.
Proof.
  revert y. induction x as [|c x IH]; intros [|c' y] H; simpl in H.
  - done.
  - apply (f_equal String.length) in H. simpl in H.
    rewrite !length_append in H. simpl in H. lia.
  - apply (f_equal String.length) in H. simpl in H.
    rewrite !length_append in H. simpl in H. lia.
  - injection H as -> H. f_equal. auto.
Qed.

Lemma append_nil_r (x : string) : x +:+ "" = x.
Proof.
  induction x as [|c x IH]; [done|].
  change (String c (x +:+ "") = String c x). by rewrite IH.
Qed.

Lemma str_take_drop (n : nat) (p : string) : str_take n p +:+ str_drop n p = p.
Proof.
  revert p. induction n as [|n IH]; intros [|c p]; try done.
  change (String c (str_take n p +:+ str_drop n p) = String c p).
  by rewrite IH.
Qed.

(** [os.path.splitext] cuts its argument in two. *)
Lemma os_path_splitext_join (p : string) :
  fst (os_path_splitext p) +:+ snd (os_path_splitext p) = p.
Proof.
  unfold os_path_splitext.
  destruct (_ && _); cbn; [apply str_take_drop | apply append_nil_r].
Qed.

Lemma startswith_sep_str_take (n : nat) (p : string) :
  startswith_sep (str_take n p) = true → startswith_sep p = true.
Proof. by destruct n, p. Qed.

Lemma startswith_sep_stem (p : string) :
  startswith_sep p = false →
  startswith_sep (fst (os_path_splitext p) +:+ "_ntoskrnl.exe") = false.
Proof.
  intros Hp. unfold os_path_splitext.
  destruct (_ && _); cbn.
  - destruct (str_take _ p) as [|c s] eqn:E; [done|]. cbn.
    apply not_true_is_false. intros Hc.
    assert (startswith_sep (str_take (Z.to_nat (rfind extsep p)) p) = true) as H
      by (by rewrite E).
    apply startswith_sep_str_take in H. congruence.
  - by destruct p.
Qed.

Lemma os_path_join_inj (o x y : string) :
  startswith_sep x = false → startswith_sep y = false →
  os_path_join o x = os_path_join o y → x = y.
Proof.
  intros Hx Hy. unfold os_path_join. rewrite Hx, Hy.
  destruct (String.eqb o "" || endswith_sep o).
  - apply append_inj_l.
  - intros H%append_inj_l. by injection H.
Qed.

(** X15. The renaming keeps the kernels of different archives apart: two
    distinct identifiers that carry the same extension and are plain
    names (not absolute paths) never get the same artifact path. *)
Theorem artifact_names_do_not_collide (output_dir iso1 iso2 : string) :
  startswith_sep iso1 = false →
  startswith_sep iso2 = false →
  snd (os_path_splitext iso1) = snd (os_path_splitext iso2) →
  iso1 ≠ iso2 →
  kernel_dst output_dir iso1 ≠ kernel_dst output_dir iso2.
Proof.
  intros H1 H2 Hext Hne Hdst. apply Hne.
  unfold kernel_dst in Hdst.
  apply os_path_join_inj in Hdst; [|by apply startswith_sep_stem..].
  apply append_inj_r in Hdst.
  rewrite <- (os_path_splitext_join iso1), <- (os_path_splitext_join iso2).
  by rewrite Hdst, Hext.
Qed.

Lemma artifact_names_do_not_collide_witness :
  kernel_dst "/out" iso_xp ≠ kernel_dst "/out" iso_7.
Proof.
  apply (artifact_names_do_not_collide "/out" iso_xp iso_7).
  - reflexivity.
  - reflexivity.
  - vm_compute. reflexivity.
  - discriminate.
Defined.

(** *** Runs without archives, runs without faults *)

(** X16. With both directories in place and none of the catalog's
    archives in the resolved input directory, [main] prints the not-found
    line of every entry in catalog order and ends normally; it creates no
    workspace, launches nothing (whether or not 7z is installed) and
    leaves the world as it was. *)
Theorem run_without_archives (args : Args.t) (w : World) :
  Args.iso_dir args ∈ w_dirs w →
  Args.output_dir args ∈ w_dirs w →
  Forall (absent_in (w_realpath w (Args.iso_dir args)) w) NTOSKRNL_MAP →
  main args w = mkOut (map ev_not_found NTOSKRNL_MAP) w (Ok tt).
Proof.
  intros H1 H2 Ha. rewrite main_valid by done.
  pose proof (main_loop_absent_prefix NTOSKRNL_MAP []
                (w_realpath w (Args.iso_dir args))
                (w_realpath w (Args.output_dir args)) w Ha) as E.
  rewrite !app_nil_r in E. exact E.
Qed.

Lemma run_without_archives_witness :
  main args0 world_empty = mkOut (map ev_not_found NTOSKRNL_MAP) world_empty (Ok tt).
Proof.
  apply (run_without_archives args0 world_empty).
  - by_evaluation.
  - by_evaluation.
  - repeat constructor; unfold absent_in; by_evaluation.
Defined.

Lemma acquired_keeps_rmtree (w : World) :
  w_rmtree (out_world (acquired w)) = w_rmtree w.
Proof.
  unfold acquired, tempfile_mkdtemp.
  destruct (w_mkdtemp w); [done|].
  by destruct (bool_decide _ || bool_decide _).
Qed.

Lemma prune_subseteq (d : string) (ps : gset string) :
  prune d ({[d]} ∪ ps) ⊆ ps.
Proof.
  intros p. unfold prune.
  rewrite elem_of_filter, elem_of_union, elem_of_singleton. tauto.
Qed.

Lemma no_faults_tl (faults : list (option exn)) :
  Forall (λ f, f = None) faults → Forall (λ f, f = None) (tl faults).
Proof. destruct 1; [constructor | done]. Qed.

Lemma no_faults_hd (faults : list (option exn)) :
  Forall (λ f, f = None) faults → hd None faults = None.
Proof. by destruct 1. Qed.

(** A round whose deletions meet no fault removes the workspace it
    created and adds no directory. *)
Lemma main_round_no_fault (iso_dir output_dir : string)
  (item : string * (string * string)) (w : World) :
  Forall (λ f, f = None) (w_rmtree w) →
  Forall (λ f, f = None) (w_rmtree (out_world (main_round iso_dir output_dir item w)))
  ∧ w_dirs (out_world (main_round iso_dir output_dir item w)) ⊆ w_dirs w
  ∧ ∀ d, In (EvMkdtemp d) (out_events (main_round iso_dir output_dir item w)) →
         d ∉ w_dirs (out_world (main_round iso_dir output_dir item w)).
Proof.
  intros Hnf. destruct item as [iso [container krnl]].
  destruct (decide (os_path_join iso_dir iso ∈ w_files w)) as [Hf|Hf].
  { destruct (out_res (acquired w)) as [d|e] eqn:Hd.
    - destruct (acquired_Ok w d Hd) as (Hne & _ & _).
      destruct (acquired_fresh w d Hd) as (_ & _ & Ed).
      rewrite (main_round_present _ _ _ _ _ d w Hf Hd).
      cbn [out_world out_events].
      pose proof (extract_kernel_shape iso_dir output_dir iso container krnl d w
                    Hne) as Hs.
      pose proof (body_shape_no_rmtree _ _ _ _ _ _ _ _ Hs) as Hnr.
      destruct (body_shape_frame _ _ _ _ _ _ _ _ Hne Hs) as [Hdirs Hrm].
      rewrite acquired_keeps_rmtree in Hrm. rewrite Ed in Hdirs.
      set (b := extract_kernel iso container krnl (iso_path_of iso_dir iso)
                  output_dir d (out_world (acquired w))) in *.
      assert (List.filter is_mkdtemp (out_events b) = []) as Hbm
        by (by destruct Hs).
      assert (List.filter is_mkdtemp (fst (after_with iso (out_res b))) = [])
        as Ham by (by destruct (out_res b) as [[|]|]).
      pose proof (released_no_mkdtemp d (out_world b) Hne) as Hrmk.
      destruct (released_shape d (out_world b) Hne) as [H1 H2 | e He | e e' He].
      + cbn [out_world out_events] in *.
        split; [cbn; rewrite Hrm; by apply no_faults_tl|].
        split; [cbn; rewrite Hdirs; apply prune_subseteq|].
        intros d' [[= <-]|Hin]; [cbn; apply prune_gone|].
        exfalso.
        apply in_app_or in Hin as [Hin|Hin];
          [by apply (filter_nil_not_In is_mkdtemp) in Hin|].
        apply in_app_or in Hin as [Hin|Hin];
          [by apply (filter_nil_not_In is_mkdtemp) in Hin|].
        by apply (filter_nil_not_In is_mkdtemp) in Hin.
      + exfalso. rewrite shutil_rmtree_clean in He; [done| |].
        * rewrite Hrm. by apply no_faults_hd.
        * rewrite Hdirs. by apply elem_of_union_l, elem_of_singleton.
      + exfalso. rewrite shutil_rmtree_clean in He; [done| |].
        * rewrite Hrm. by apply no_faults_hd.
        * rewrite Hdirs. by apply elem_of_union_l, elem_of_singleton.
    - rewrite (main_round_no_workspace _ _ _ _ _ _ e) by done. cbn.
      destruct (acquired_Raise w e Hd) as [-> _].
      rewrite acquired_keeps_rmtree. split; [done|]. split; [done|]. tauto. }
  rewrite main_round_absent by done. cbn.
  split; [done|]. split; [done|].
  intros d [?|[]]; discriminate.
Qed.

(** X17. When no recursive deletion meets a fault, a run of the loop
    leaks no workspace, however its rounds end: every directory created
    during the run is gone when the run is over, and the run adds no
    directory to those that existed before. *)
Theorem no_workspace_outlives_the_run
  (items : list (string * (string * string))) (iso_dir output_dir : string)
  (w : World) :
  Forall (λ f, f = None) (w_rmtree w) →
  w_dirs (out_world (main_loop items iso_dir output_dir w)) ⊆ w_dirs w
  ∧ ∀ d, In (EvMkdtemp d) (out_events (main_loop items iso_dir output_dir w)) →
         d ∉ w_dirs (out_world (main_loop items iso_dir output_dir w)).
Proof.
  revert w. induction items as [|item rest IH]; intros w Hnf.
  { split; [done|]. intros d []. }
  destruct (main_round_no_fault iso_dir output_dir item w Hnf) as (Hnf' & Hsub & Hgone).
  rewrite main_loop_cons.
  destruct (out_res (main_round iso_dir output_dir item w)) as [[]|e];
    cbn [out_world out_events]; [|done].
  destruct (IH _ Hnf') as [Hsub' Hgone'].
  split; [intros p Hp; by apply Hsub, Hsub'|].
  intros d [Hin|Hin]%in_app_or; [|by apply Hgone'].
  intros Hd. apply (Hgone d Hin). by apply Hsub'.
Qed.

Lemma no_workspace_outlives_the_run_witness :
  w_dirs (out_world (main_loop NTOSKRNL_MAP "/isos" "/out" world_hop2_status))
    ⊆ w_dirs world_hop2_status
  ∧ ∀ d, In (EvMkdtemp d)
            (out_events (main_loop NTOSKRNL_MAP "/isos" "/out" world_hop2_status)) →
         d ∉ w_dirs (out_world
                       (main_loop NTOSKRNL_MAP "/isos" "/out" world_hop2_status)).
Proof.
  apply (no_workspace_outlives_the_run NTOSKRNL_MAP "/isos" "/out"
           world_hop2_status).
  vm_compute. constructor.
Defined.
